(** * CloudVPS demo engine (src/app.js): points, daily gate, tasks, lease countdown

    A shallow embedding of the state/time engine that lives in the [app]
    closure of src/app.js, followed by the properties the specification
    states about it.

    Conventions of the model.
    - JavaScript numbers that hold points, seconds and epoch milliseconds
      are integers well inside the exact range of a double; they are [Z].
      [Math.floor (x / 1000)] on such values is [x / 1000] on [Z] (Rocq's
      [Z.div] rounds towards minus infinity for a positive divisor).
    - The closure variables [state] and [sessionEarned] are one value of
      type [App] that every operation takes and returns.  [toast.show] is
      the only way an operation reports its outcome (every function returns
      [undefined]); the messages shown are collected in [shown], newest
      first.
    - [persist], [render], [setBtnLoading] and [auth.openAuth] write to
      storage or to the DOM only and never to [state]; they are not part of
      the model.  [auth.isLoggedIn()] is an input of each operation.
    - An [async] function is split at its [await]: the synchronous part up
      to the [await], and the continuation that runs when the awaited
      promise settles, with the constants the continuation closes over.
    - One synchronous run of code reads one clock value [now]. *)

From Stdlib Require Import ZArith List String Ascii Bool Lia DecimalString.
From Stdlib Require DecimalPos DecimalZ.
Import ListNotations.
Local Open Scope string_scope.
Local Open Scope Z_scope.

(** ** Clock *)

Module Clock.

(** Day number, counted from 1970-01-01, of an epoch time in ms. *)
Definition dayOf (ms : Z) : Z := ms / 86400000.

(** Proleptic Gregorian calendar date of a day number: what
    [getUTCFullYear], [getUTCMonth() + 1] and [getUTCDate] return for a
    [Date] on that day. *)
Definition civil (days : Z) : Z * Z * Z :=
  let z := days + 719468 in
  let era := z / 146097 in
  let doe := z - era * 146097 in
  let yoe := (doe - doe / 1460 + doe / 36524 - doe / 146096) / 365 in
  let doy := doe - (365 * yoe + yoe / 4 - yoe / 100) in
  let mp := (5 * doy + 2) / 153 in
  let d := doy - (153 * mp + 2) / 5 + 1 in
  let m := if mp <? 10 then mp + 3 else mp - 9 in
  let y := yoe + era * 400 + (if m <=? 2 then 1 else 0) in
  (y, m, d).

(** [String(n)] for an integer. *)
Definition str (n : Z) : string := NilZero.string_of_int (Z.to_int n).

(** [s.padStart(2, "0")]. *)
Definition pad2 (s : string) : string :=
  match String.length s with
  | O => "00" ++ s
  | S O => "0" ++ s
  | _ => s
  end.

(** [utcDateKey(new Date(ms))]: the text y-mm-dd. *)
Definition utcDateKey (ms : Z) : string :=
  let '(y, m, d) := civil (dayOf ms) in
  str y ++ "-" ++ pad2 (str m) ++ "-" ++ pad2 (str d).

End Clock.

Arguments Clock.utcDateKey : simpl never.

(** ** Configuration ([CFG]) *)

Record TaskCfg := mkTaskCfg {
reward : Z;
cooldownSec : Z;
tlabel : string
}.

Module CFG.
Definition redeem_points : Z := 10.
Definition redeem_seconds : Z := 6 * 60 * 60.
Definition extend_points : Z := 50.
Definition extend_seconds : Z := 60 * 60.
Definition activityMax : nat := 6.

(** [CFG.tasks[type]] for the [data-task] attribute of a task card; [None]
    is [undefined]. *)
Definition tasks (type : string) : option TaskCfg :=
  if String.eqb type "video" then Some (mkTaskCfg 5 0 "Watched Ad")
  else if String.eqb type "short" then Some (mkTaskCfg 2 25 "Short Link Completed")
  else if String.eqb type "daily" then Some (mkTaskCfg 10 0 "Daily Bonus Achieved")
  else None.
End CFG.

(** ** Data model *)

Inductive Status := stopped | provisioning | running.

Definition Status_eqb (a b : Status) : bool :=
  match a, b with
  | stopped, stopped | provisioning, provisioning | running, running => true
  | _, _ => false
  end.

Record Vps := mkVps {
  status : Status;
  timeLeftSec : Z;
  lastTickMs : Z
}.

Record DailyWindow := mkDaily {
  utcDate : string;
  earned : Z;
  dailyClaimedUtcDate : string
}.

(** [state.tasks]: the cooldown instants of the two repeatable tasks. *)
Record Tasks := mkTasks {
  video_cooldownUntilMs : Z;
  short_cooldownUntilMs : Z
}.

Record ActivityEntry := mkEntry {
  label : string;
  delta : Z;
  ts : Z
}.

Record State := mkState {
  pointsBalance : Z;
  vps : Vps;
  daily : DailyWindow;
  tasks : Tasks;
  activity : list ActivityEntry
}.

(** The messages handed to [toast.show], with the text the code shows. *)
Inductive Toast :=
| DailyRefreshed          (* "Daily missions refreshed (UTC)." *)
| AlreadyClaimedToday     (* "Daily bonus already claimed today (UTC)." *)
| OnCooldown              (* "Task on cooldown. Please wait." *)
| ProcessingTask          (* "Processing task..." *)
| PointsEarned (r : Z)    (* "+r points earned." *)
| AlreadyActive           (* "VPS is already running/provisioning." *)
| InsufficientFunds (need : Z)  (* "Not enough points. Need n more." *)
| ProvisioningVps         (* "Provisioning VPS..." *)
| VpsRunning              (* "VPS is running. Countdown started." *)
| NotRunning              (* "VPS is not running." *)
| VpsStopped              (* "VPS stopped (timer paused)." *)
| NothingToExtend         (* "No active time to extend. Create a VPS first." *)
| Extended (hours pts : Z) (* "Extended +h h for p pts." *)
| TimeEnded.              (* "Time ended. VPS stopped." *)

Record App := mkApp {
  state : State;
  sessionEarned : Z;
  shown : list Toast
}.

(** *** Field updates *)

Definition set_state (f : State -> State) (a : App) : App :=
  mkApp (f (state a)) (sessionEarned a) (shown a).

Definition toast_show (t : Toast) (a : App) : App :=
  mkApp (state a) (sessionEarned a) (t :: shown a).

Definition with_pointsBalance (p : Z) (s : State) : State :=
  mkState p (vps s) (daily s) (tasks s) (activity s).

Definition with_vps (v : Vps) (s : State) : State :=
  mkState (pointsBalance s) v (daily s) (tasks s) (activity s).

Definition with_daily (d : DailyWindow) (s : State) : State :=
  mkState (pointsBalance s) (vps s) d (tasks s) (activity s).

Definition with_tasks (t : Tasks) (s : State) : State :=
  mkState (pointsBalance s) (vps s) (daily s) t (activity s).

Definition with_activity (l : list ActivityEntry) (s : State) : State :=
  mkState (pointsBalance s) (vps s) (daily s) (tasks s) l.

(** [state.tasks[type]?.cooldownUntilMs ?? 0]. *)
Definition cooldown_get (t : Tasks) (type : string) : Z :=
  if String.eqb type "video" then video_cooldownUntilMs t
  else if String.eqb type "short" then short_cooldownUntilMs t
  else 0.

(** [state.tasks[type].cooldownUntilMs = v].  The write is reached only
    for a type that [CFG.tasks] knows and that is not "daily", hence for
    "video" or "short" (lemma [repeatable_types]); the last branch is
    never taken. *)
Definition cooldown_set (type : string) (v : Z) (t : Tasks) : Tasks :=
  if String.eqb type "video" then mkTasks v (short_cooldownUntilMs t)
  else if String.eqb type "short" then mkTasks (video_cooldownUntilMs t) v
  else t.

(** ** Activity log and daily gate *)

(** [pushActivity(label, delta)]: [unshift] then [slice(0, CFG.activityMax)]. *)
Definition pushActivity (now : Z) (lbl : string) (dlt : Z) (a : App) : App :=
  set_state (fun s =>
    with_activity (firstn CFG.activityMax (mkEntry lbl dlt now :: activity s)) s) a.

(** [ensureDaily()]. *)
Definition ensureDaily (now : Z) (a : App) : App :=
  let t := Clock.utcDateKey now in
  if negb (String.eqb (utcDate (daily (state a))) t) then
    toast_show DailyRefreshed
      (set_state (with_daily (mkDaily t 0 "")) a)
  else a.

(** ** Operations *)

(** What the continuation of [runTask] closes over: [type], [cfg] and the
    constant [today] computed before the [await]. *)
Record PendingTask := mkPending {
  p_type : string;
  p_cfg : TaskCfg;
  p_today : string
}.

(** [runTask(type, card)] up to its [await].  [btnOk] is the test
    [btn instanceof HTMLButtonElement] on the card.  The second component
    is the continuation left waiting on the timer, if any. *)
Definition runTask_begin (loggedIn btnOk : bool) (now : Z) (type : string)
    (a : App) : App * option PendingTask :=
  let a := ensureDaily now a in
  if negb loggedIn then (a, None)
  else
    match CFG.tasks type with
    | None => (a, None)
    | Some cfg =>
        let today := Clock.utcDateKey now in
        let refused :=
          if String.eqb type "daily" then
            if String.eqb (dailyClaimedUtcDate (daily (state a))) today
            then Some AlreadyClaimedToday else None
          else
            if now <? cooldown_get (tasks (state a)) type
            then Some OnCooldown else None in
        match refused with
        | Some t => (toast_show t a, None)
        | None =>
            if negb btnOk then (a, None)
            else (toast_show ProcessingTask a, Some (mkPending type cfg today))
        end
    end.

(** [runTask] after its [await], at clock value [now]. *)
Definition runTask_resume (now : Z) (p : PendingTask) (a : App) : App :=
  let cfg := p_cfg p in
  let a := set_state (fun s => with_pointsBalance (pointsBalance s + reward cfg) s) a in
  let a := mkApp (state a) (sessionEarned a + reward cfg) (shown a) in
  let a := ensureDaily now a in
  let a := set_state (fun s =>
             with_daily (mkDaily (utcDate (daily s)) (earned (daily s) + reward cfg)
                                 (dailyClaimedUtcDate (daily s))) s) a in
  let a := pushActivity now (tlabel cfg) (reward cfg) a in
  let a :=
    if String.eqb (p_type p) "daily" then
      set_state (fun s =>
        with_daily (mkDaily (utcDate (daily s)) (earned (daily s)) (p_today p)) s) a
    else
      set_state (fun s =>
        with_tasks (cooldown_set (p_type p) (now + cooldownSec cfg * 1000) (tasks s)) s) a in
  toast_show (PointsEarned (reward cfg)) a.

(** [createVps()] up to its [await]; the flag tells whether the
    continuation is left waiting. *)
Definition createVps_begin (loggedIn : bool) (a : App) : App * bool :=
  if negb loggedIn then (a, false)
  else if Status_eqb (status (vps (state a))) running
          || Status_eqb (status (vps (state a))) provisioning
  then (toast_show AlreadyActive a, false)
  else if pointsBalance (state a) <? CFG.redeem_points
  then (toast_show (InsufficientFunds (CFG.redeem_points - pointsBalance (state a))) a, false)
  else
    let a := set_state (fun s => with_pointsBalance (pointsBalance s - CFG.redeem_points) s) a in
    let a := set_state (fun s =>
               with_vps (mkVps provisioning (timeLeftSec (vps s)) (lastTickMs (vps s))) s) a in
    (toast_show ProvisioningVps a, true).

(** [createVps] after its [await]. *)
Definition createVps_resume (now : Z) (a : App) : App :=
  let a := set_state (with_vps (mkVps running CFG.redeem_seconds now)) a in
  let a := pushActivity now "Redeemed VPS 6H" (- CFG.redeem_points) a in
  toast_show VpsRunning a.

(** [stopVps()] up to [await confirmModal.open(...)]. *)
Definition stopVps_begin (loggedIn : bool) (a : App) : App * bool :=
  if negb loggedIn then (a, false)
  else if negb (Status_eqb (status (vps (state a))) running)
  then (toast_show NotRunning a, false)
  else (a, true).

(** [stopVps] once the confirmation modal has answered [ok]. *)
Definition stopVps_resume (ok : bool) (now : Z) (a : App) : App :=
  if negb ok then a
  else
    let a := set_state (fun s => with_vps (mkVps stopped (timeLeftSec (vps s)) now) s) a in
    toast_show VpsStopped a.

(** [extendVps()]. *)
Definition extendVps (loggedIn : bool) (now : Z) (a : App) : App :=
  if negb loggedIn then a
  else if timeLeftSec (vps (state a)) <=? 0
  then toast_show NothingToExtend a
  else if pointsBalance (state a) <? CFG.extend_points
  then toast_show (InsufficientFunds (CFG.extend_points - pointsBalance (state a))) a
  else
    let a := set_state (fun s => with_pointsBalance (pointsBalance s - CFG.extend_points) s) a in
    let a := set_state (fun s =>
               with_vps (mkVps (status (vps s)) (timeLeftSec (vps s) + CFG.extend_seconds)
                               (lastTickMs (vps s))) s) a in
    let a := pushActivity now "Extended time" (- CFG.extend_points) a in
    toast_show (Extended (CFG.extend_seconds / 3600) CFG.extend_points) a.

(** The countdown part of [tick()], on the lease alone; the flag tells
    whether "Time ended" is shown. *)
Definition tick_vps (now : Z) (v : Vps) : Vps * bool :=
  if Status_eqb (status v) running && (0 <? timeLeftSec v) then
    let last := if lastTickMs v =? 0 then now else lastTickMs v in
    let delta := (now - last) / 1000 in
    let v := if 0 <? delta
             then mkVps (status v) (Z.max 0 (timeLeftSec v - delta)) (last + delta * 1000)
             else v in
    if timeLeftSec v <=? 0 then (mkVps stopped 0 now, true) else (v, false)
  else (v, false).

(** [tick()]. *)
Definition tick (now : Z) (a : App) : App :=
  let a := ensureDaily now a in
  let '(v, ended) := tick_vps now (vps (state a)) in
  let a := set_state (with_vps v) a in
  if ended then toast_show TimeEnded a else a.

(** ** Start-up *)

(** The object literal [initial]. *)
Definition initial (now : Z) : State :=
  mkState 0 (mkVps stopped 0 now) (mkDaily (Clock.utcDateKey now) 0 "") (mkTasks 0 0) [].

(** A parsed [cloudvps_app_v3] blob; [None] in a field is a missing (falsy)
    property. *)
Record Stored := mkStored {
  s_pointsBalance : Z;
  s_vps : Vps;
  s_daily : option DailyWindow;
  s_tasks : option Tasks;
  s_activity : option (list ActivityEntry)
}.

(** [loadJSON(KEYS.app, initial)] followed by the "normalize" block; [raw]
    is [None] when nothing usable is stored. *)
Definition load (now : Z) (raw : option Stored) : State :=
  let today := Clock.utcDateKey now in
  match raw with
  | None => initial now
  | Some r =>
      let fresh := mkDaily today 0 "" in
      let d := match s_daily r with
               | None => fresh
               | Some d => if negb (String.eqb (utcDate d) today) then fresh else d
               end in
      let d := if negb (String.eqb (dailyClaimedUtcDate d) "")
                  && negb (String.eqb (dailyClaimedUtcDate d) today)
               then mkDaily (utcDate d) (earned d) "" else d in
      let t := match s_tasks r with None => mkTasks 0 0 | Some t => t end in
      let l := match s_activity r with None => [] | Some l => l end in
      mkState (s_pointsBalance r) (s_vps r) d t l
  end.

(** ** The event loop *)

(** Everything that can run a piece of engine code: a click on a task or
    action button, the timer or the modal that resumes a waiting
    continuation, and the one-second interval. *)
Inductive Event :=
| RunTask (loggedIn btnOk : bool) (type : string)
| TaskTimer (i : nat)
| CreateVps (loggedIn : bool)
| CreateTimer
| StopVps (loggedIn : bool)
| StopAnswer (ok : bool)
| ExtendVps (loggedIn : bool)
| Tick.

Record Sys := mkSys {
  app : App;
  tasksWaiting : list PendingTask;
  createsWaiting : nat;
  stopsWaiting : nat
}.

Fixpoint remove_nth {A} (i : nat) (l : list A) : list A :=
  match l, i with
  | [], _ => []
  | _ :: l, O => l
  | x :: l, S i => x :: remove_nth i l
  end.

(** One event at clock value [now].  A timer or answer event with no
    continuation waiting does nothing. *)
Definition step (now : Z) (e : Event) (s : Sys) : Sys :=
  match e with
  | RunTask loggedIn btnOk type =>
      let '(a, p) := runTask_begin loggedIn btnOk now type (app s) in
      mkSys a (match p with Some p => (tasksWaiting s ++ [p])%list | None => tasksWaiting s end)
            (createsWaiting s) (stopsWaiting s)
  | TaskTimer i =>
      match nth_error (tasksWaiting s) i with
      | Some p => mkSys (runTask_resume now p (app s)) (remove_nth i (tasksWaiting s))
                        (createsWaiting s) (stopsWaiting s)
      | None => s
      end
  | CreateVps loggedIn =>
      let '(a, w) := createVps_begin loggedIn (app s) in
      mkSys a (tasksWaiting s)
            (if w then S (createsWaiting s) else createsWaiting s) (stopsWaiting s)
  | CreateTimer =>
      match createsWaiting s with
      | S n => mkSys (createVps_resume now (app s)) (tasksWaiting s) n (stopsWaiting s)
      | O => s
      end
  | StopVps loggedIn =>
      let '(a, w) := stopVps_begin loggedIn (app s) in
      mkSys a (tasksWaiting s) (createsWaiting s)
            (if w then S (stopsWaiting s) else stopsWaiting s)
  | StopAnswer ok =>
      match stopsWaiting s with
      | S n => mkSys (stopVps_resume ok now (app s)) (tasksWaiting s) (createsWaiting s) n
      | O => s
      end
  | ExtendVps loggedIn =>
      mkSys (extendVps loggedIn now (app s)) (tasksWaiting s) (createsWaiting s)
            (stopsWaiting s)
  | Tick => mkSys (tick now (app s)) (tasksWaiting s) (createsWaiting s) (stopsWaiting s)
  end.

(** A trace of timed events, run in order. *)
Fixpoint run (tr : list (Z * Event)) (s : Sys) : Sys :=
  match tr with
  | [] => s
  | (now, e) :: tr => run tr (step now e s)
  end.

(** The system once the script has been evaluated at [now]: the stored
    blob is loaded and normalized, [se] is the session counter read from
    [sessionStorage], and the "init" lines call [tick()] once. *)
Definition boot (now : Z) (raw : option Stored) (se : Z) : Sys :=
  mkSys (tick now (mkApp (load now raw) se [])) [] O O.

(** ** Concrete states and instants used in the examples *)

(** An app with the given balance and lease, a fresh daily window for the
    day [today], no cooldowns and an empty log. *)
Definition app_with (bal : Z) (v : Vps) (today : string) : App :=
  mkApp (mkState bal v (mkDaily today 0 "") (mkTasks 0 0) []) 0 [].

(** 2024-01-01T00:00:00.000Z, in epoch milliseconds. *)
Definition jan1 : Z := 1704067200000.

(** 2024-01-02T00:00:00.000Z. *)
Definition jan2 : Z := jan1 + 86400000.

(** [pushActivity] once per element of [es], in order; an element is the
    clock value, the label and the delta of one call. *)
Definition pushAll (es : list (Z * string * Z)) (a : App) : App :=
  fold_left (fun a e => pushActivity (fst (fst e)) (snd (fst e)) (snd e) a) es a.

(** The entry that [pushActivity] builds for one call. *)
Definition entry_of (e : Z * string * Z) : ActivityEntry :=
  mkEntry (snd (fst e)) (snd e) (fst (fst e)).

(** [CFG.tasks.daily]. *)
Definition daily_cfg : TaskCfg := mkTaskCfg 10 0 "Daily Bonus Achieved".

(** The blob that [persist] writes for a state: every property present. *)
Definition stored_of (s : State) : Stored :=
  mkStored (pointsBalance s) (vps s) (Some (daily s)) (Some (tasks s)) (Some (activity s)).

(** A daily bonus clicked half a second before midnight UTC of
    2024-01-01, on a fresh installation started that morning, whose delay
    ends half a second after midnight. *)
Definition across_midnight : list (Z * Event) :=
  [(jan2 - 500, RunTask true true "daily"); (jan2 + 500, TaskTimer 0%nat)].

(** The i-th of a series of ad tasks, clicked every four seconds from
    [t0] and completed one second after the click. *)
Definition watch_ads (t0 : Z) (n : nat) : list (Z * Event) :=
  flat_map (fun i => [(t0 + 4000 * Z.of_nat i, RunTask true true "video");
                      (t0 + 4000 * Z.of_nat i + 1000, TaskTimer 0%nat)])
           (seq 0 n).

(** Fourteen ads (70 points), a lease created, extended by an hour and
    stopped within the same second, then a second lease requested. *)
Definition recreate_on_paused_time : list (Z * Event) :=
  (watch_ads (jan1 + 100) 14 ++
   [(jan1 + 60100, CreateVps true); (jan1 + 61100, CreateTimer);
    (jan1 + 61300, ExtendVps true);
    (jan1 + 61500, StopVps true); (jan1 + 61800, StopAnswer true);
    (jan1 + 70100, CreateVps true)])%list.

(** Seconds left on the lease of a system. *)
Definition timeLeft (s : Sys) : Z := timeLeftSec (vps (state (app s))).

(** A fresh installation started at 23:59:30 UTC of 2024-01-01, a short
    link completed at 23:59:41 (cooldown until 00:00:06), and the last tick
    of the day. *)
Definition short_before_midnight : list (Z * Event) :=
  [(jan2 - 20000, RunTask true true "short"); (jan2 - 19000, TaskTimer 0%nat);
   (jan2 - 100, Tick)].

(** ** Predicates used in the statements *)

(** Every continuation of [runTask] that is waiting holds the configuration
    entry of its task type, as [runTask] put it there. *)
Definition waiting_ok (s : Sys) : Prop :=
  Forall (fun p => CFG.tasks (p_type p) = Some (p_cfg p)) (tasksWaiting s).

(** The activity log is within its retention bound. *)
Definition log_ok (a : App) : Prop :=
  (List.length (activity (state a)) <= CFG.activityMax)%nat.

(** The points balance of a system. *)
Definition balance (s : Sys) : Z := pointsBalance (state (app s)).

(** ** Rendering of the action and task buttons *)

(** What [renderActions()] computes; a button is disabled when its flag is
    false. *)
Record Actions := mkActions {
  canCreate : bool;
  canStop : bool;
  canExtend : bool
}.

(** [renderActions()]. *)
Definition renderActions (s : State) : Actions :=
  let st := status (vps s) in
  mkActions
    (negb (Status_eqb st provisioning) && negb (Status_eqb st running)
       && (CFG.redeem_points <=? pointsBalance s))
    (Status_eqb st running)
    ((0 <? timeLeftSec (vps s)) && (CFG.extend_points <=? pointsBalance s)).

(** The text of a task card's pill. *)
Inductive Pill :=
| Completed               (* "Completed" *)
| Active                  (* "Active" *)
| Cooldown (secs : Z)     (* "Cooldown ns" *)
| Available.              (* "Available" *)

(** The body of the loop of [renderTasks()] for a card of task [type]:
    whether its button is disabled, and its pill.  [Math.ceil(x / 1000)] is
    [- ((- x) / 1000)]. *)
Definition renderTask (now : Z) (type : string) (s : State) : bool * Pill :=
  let today := Clock.utcDateKey now in
  if String.eqb type "daily" then
    let claimed := String.eqb (dailyClaimedUtcDate (daily s)) today in
    (claimed, if claimed then Completed else Active)
  else
    let cdUntil := cooldown_get (tasks s) type in
    let remainingMs := Z.max 0 (cdUntil - now) in
    if 0 <? remainingMs then (true, Cooldown (- ((- remainingMs) / 1000)))
    else (false, Available).

(** ** More predicates and runs *)

(** [tick()] at each instant of [ts], in order. *)
Definition ticks (ts : list Z) (a : App) : App :=
  fold_left (fun a t => tick t a) ts a.

(** A lease never has negative seconds left and, when running, has some. *)
Definition lease_ok (v : Vps) : Prop :=
  0 <= timeLeftSec v /\ (status v = running -> 0 < timeLeftSec v).

(** The instants of a list never go back. *)
Fixpoint ascending (prev : Z) (ts : list Z) : Prop :=
  match ts with
  | [] => True
  | t :: ts => prev <= t /\ ascending t ts
  end.

(** [CFG.tasks.short]. *)
Definition short_cfg : TaskCfg := mkTaskCfg 2 25 "Short Link Completed".

(** [CFG.tasks.video]. *)
Definition video_cfg : TaskCfg := mkTaskCfg 5 0 "Watched Ad".

(** ** Text helpers

    A JavaScript string is the [string] of its UTF-16 code units, for
    strings whose code units are below 256; [length] and the one-character
    patterns below then mean the same on both sides. *)

(** [s.replaceAll(c, r)] for a pattern [c] of one character. *)
Fixpoint replaceAll (c : ascii) (r : string) (s : string) : string :=
  match s with
  | EmptyString => EmptyString
  | String x s' =>
      if Ascii.eqb x c then (r ++ replaceAll c r s')%string
      else String x (replaceAll c r s')
  end.

(** The double-quote character. *)
Definition dquote : ascii := ascii_of_nat 34.

(** [escapeHTML(s)], for a string [s]. *)
Definition escapeHTML (s : string) : string :=
  replaceAll "'" "&#039;"
    (replaceAll dquote "&quot;"
       (replaceAll ">" "&gt;"
          (replaceAll "<" "&lt;"
             (replaceAll "&" "&amp;" s)))).

(** What [escapeHTML] makes of one character. *)
Definition entity (c : ascii) : string :=
  if Ascii.eqb c "&" then "&amp;"
  else if Ascii.eqb c "<" then "&lt;"
  else if Ascii.eqb c ">" then "&gt;"
  else if Ascii.eqb c dquote then "&quot;"
  else if Ascii.eqb c "'" then "&#039;"
  else String c EmptyString.

(** Whether the character [c] occurs in [s]. *)
Fixpoint occurs (c : ascii) (s : string) : bool :=
  match s with
  | EmptyString => false
  | String x s' => Ascii.eqb x c || occurs c s'
  end.

(** [formatHHMMSS(totalSec)], for an integer [totalSec]. *)
Definition formatHHMMSS (totalSec : Z) : string :=
  let s := Z.max 0 totalSec in
  (Clock.pad2 (Clock.str (s / 3600)) ++ ":" ++
   Clock.pad2 (Clock.str ((s mod 3600) / 60)) ++ ":" ++
   Clock.pad2 (Clock.str (s mod 60)))%string.

(** The character of a decimal digit. *)
Definition digit (d : Z) : ascii := ascii_of_nat (48 + Z.to_nat d).

(** Two decimal digits, tens first. *)
Definition two_digits (n : Z) : string :=
  String (digit (n / 10)) (String (digit (n mod 10)) EmptyString).

(** ** Accounts (the [auth] closure)

    [users], [session] and the object stored under [cloudvps_reset_v3] are
    one value of type [Auth]; the storage is taken to work, so that what
    [setResetStore] saves is what [resetStore()] reads next.  The identifier
    drawn by [cryptoRandomId()], the code drawn by [randInt] and the clock
    are inputs.  [toLowerCase] is any function on strings. *)

Record User := mkUser {
  u_id : string;
  u_email : string;
  u_password : string;
  u_createdAt : Z
}.

Record Session := mkSession {
  userId : string;
  s_email : string;
  s_createdAt : Z
}.

Record ResetRec := mkReset {
  r_code : string;
  r_exp : Z
}.

Record Auth := mkAuth {
  users : list User;
  session : option Session;
  resetStore : list (string * ResetRec)
}.

(** The [error] texts of the account functions. *)
Inductive AuthError :=
| AccountNotFoundRegister  (* "Account not found. Please register." *)
| InvalidPassword          (* "Invalid password." *)
| MustAgreeTos             (* "You must agree to Terms of Service." *)
| PasswordTooShort         (* "Password must be at least 8 characters." *)
| PasswordsDoNotMatch      (* "Passwords do not match." *)
| EmailAlreadyRegistered   (* "Email already registered. Please login." *)
| EmailNotFound            (* "Email not found." *)
| NoResetRequest           (* "No reset request found. Use 'Forgot' first." *)
| ResetCodeExpired         (* "Reset code expired." *)
| InvalidResetCode         (* "Invalid reset code." *)
| AccountNotFound.         (* "Account not found." *)

(** [store[k]] on the reset object; [None] is [undefined]. *)
Fixpoint store_get (k : string) (st : list (string * ResetRec)) : option ResetRec :=
  match st with
  | [] => None
  | (k', v) :: st => if String.eqb k' k then Some v else store_get k st
  end.

(** [delete store[k]]. *)
Fixpoint store_delete (k : string) (st : list (string * ResetRec)) : list (string * ResetRec) :=
  match st with
  | [] => []
  | (k', v) :: st => if String.eqb k' k then store_delete k st else (k', v) :: store_delete k st
  end.

(** [store[k] = v]. *)
Definition store_set (k : string) (v : ResetRec) (st : list (string * ResetRec)) :
    list (string * ResetRec) :=
  (k, v) :: store_delete k st.

(** The white space that [trim] removes, among the characters below 256. *)
Definition is_space (c : ascii) : bool :=
  let n := nat_of_ascii c in
  ((9 <=? n)%nat && (n <=? 13)%nat) || (n =? 32)%nat || (n =? 160)%nat.

Fixpoint trimStart (s : string) : string :=
  match s with
  | EmptyString => EmptyString
  | String c s' => if is_space c then trimStart s' else s
  end.

Fixpoint trimEnd (s : string) : string :=
  match s with
  | EmptyString => EmptyString
  | String c s' =>
      match trimEnd s' with
      | EmptyString => if is_space c then EmptyString else String c EmptyString
      | t => String c t
      end
  end.

(** [s.trim()]. *)
Definition trim (s : string) : string := trimEnd (trimStart s).

(** The password of the first element that satisfies [f] is set: the
    assignment [u.password = p] on the object that [users.find] returned. *)
Fixpoint set_password_first (f : User -> bool) (p : string) (l : list User) : list User :=
  match l with
  | [] => []
  | u :: l =>
      if f u then mkUser (u_id u) (u_email u) p (u_createdAt u) :: l
      else u :: set_password_first f p l
  end.

Section Accounts.

Variable toLowerCase : string -> string.

(** The test [u.email.toLowerCase() === email.toLowerCase()]. *)
Definition sameEmail (email : string) (u : User) : bool :=
  String.eqb (toLowerCase (u_email u)) (toLowerCase email).

(** [isLoggedIn()]: [!!session?.userId]. *)
Definition isLoggedIn (au : Auth) : bool :=
  match session au with
  | Some se => negb (String.eqb (userId se) "")
  | None => false
  end.

(** The state change of [logout()]. *)
Definition logout (au : Auth) : Auth :=
  mkAuth (users au) None (resetStore au).

(** [ensureDemoUser(email, provider)]. *)
Definition ensureDemoUser (id : string) (now : Z) (email provider : string) (au : Auth) :
    Auth * User :=
  match find (sameEmail email) (users au) with
  | Some existing => (au, existing)
  | None =>
      let u := mkUser id email ("oauth:" ++ provider)%string now in
      (mkAuth (users au ++ [u])%list (session au) (resetStore au), u)
  end.

(** The state change of the click handler of a [data-oauth] button whose
    attribute is [provider]. *)
Definition oauthSignIn (id : string) (now : Z) (provider : string) (au : Auth) : Auth :=
  let email := if String.eqb provider "google"
               then "google_user@demo.com" else "github_user@demo.com" in
  let '(au, u) := ensureDemoUser id now email
                    (if String.eqb provider "" then "oauth" else provider) au in
  mkAuth (users au) (Some (mkSession (u_id u) (u_email u) now)) (resetStore au).

(** [loginWithEmail(email, password)]; [None] is [{ ok: true }]. *)
Definition loginWithEmail (now : Z) (email password : string) (au : Auth) :
    Auth * option AuthError :=
  match find (sameEmail email) (users au) with
  | None => (au, Some AccountNotFoundRegister)
  | Some u =>
      if negb (String.eqb (u_password u) password) then (au, Some InvalidPassword)
      else (mkAuth (users au) (Some (mkSession (u_id u) (u_email u) now)) (resetStore au),
            None)
  end.

(** [register(email, password, confirm, tosChecked)]. *)
Definition register (id : string) (now : Z) (email password confirm : string)
    (tosChecked : bool) (au : Auth) : Auth * option AuthError :=
  if negb tosChecked then (au, Some MustAgreeTos)
  else if (String.length password <? 8)%nat then (au, Some PasswordTooShort)
  else if negb (String.eqb password confirm) then (au, Some PasswordsDoNotMatch)
  else if existsb (sameEmail email) (users au) then (au, Some EmailAlreadyRegistered)
  else
    let u := mkUser id email password now in
    (mkAuth (users au ++ [u])%list (Some (mkSession (u_id u) (u_email u) now))
            (resetStore au), None).

(** [genResetCode(email)], with the six-digit text [code] that it draws;
    [inr code] is [{ ok: true, code }]. *)
Definition genResetCode (code : string) (now : Z) (email : string) (au : Auth) :
    Auth * (AuthError + string) :=
  match find (sameEmail email) (users au) with
  | None => (au, inl EmailNotFound)
  | Some _ =>
      (mkAuth (users au) (session au)
              (store_set (toLowerCase email) (mkReset code (now + 10 * 60 * 1000))
                         (resetStore au)),
       inr code)
  end.

(** [doReset(email, code, newPassword)]. *)
Definition doReset (now : Z) (email code newPassword : string) (au : Auth) :
    Auth * option AuthError :=
  if (String.length newPassword <? 8)%nat then (au, Some PasswordTooShort)
  else
    match store_get (toLowerCase email) (resetStore au) with
    | None => (au, Some NoResetRequest)
    | Some rec =>
        if r_exp rec <? now then (au, Some ResetCodeExpired)
        else if negb (String.eqb (trim code) (r_code rec)) then (au, Some InvalidResetCode)
        else
          match find (sameEmail email) (users au) with
          | None => (au, Some AccountNotFound)
          | Some _ =>
              (mkAuth (set_password_first (sameEmail email) newPassword (users au))
                      (session au)
                      (store_delete (toLowerCase email) (resetStore au)),
               None)
          end
    end.

(** What the account forms and buttons can do, with the inputs drawn. *)
Inductive AuthOp :=
| OpRegister (id email password confirm : string) (tosChecked : bool)
| OpLogin (email password : string)
| OpOAuth (id provider : string)
| OpForgot (code email : string)
| OpReset (email code newPassword : string)
| OpLogout.

Definition auth_step (now : Z) (op : AuthOp) (au : Auth) : Auth :=
  match op with
  | OpRegister id email password confirm tos =>
      fst (register id now email password confirm tos au)
  | OpLogin email password => fst (loginWithEmail now email password au)
  | OpOAuth id provider => oauthSignIn id now provider au
  | OpForgot code email => fst (genResetCode code now email au)
  | OpReset email code newPassword => fst (doReset now email code newPassword au)
  | OpLogout => logout au
  end.

Fixpoint auth_run (ops : list (Z * AuthOp)) (au : Auth) : Auth :=
  match ops with
  | [] => au
  | (now, op) :: ops => auth_run ops (auth_step now op au)
  end.

(** No two accounts have the same email up to case. *)
Definition unique_emails (au : Auth) : Prop :=
  NoDup (map (fun u => toLowerCase (u_email u)) (users au)).

End Accounts.

(** Lower case of the letters A to Z, other characters unchanged: an
    instance of [toLowerCase] for the examples. *)
Definition lower_ascii (c : ascii) : ascii :=
  let n := nat_of_ascii c in
  if ((65 <=? n) && (n <=? 90))%nat then ascii_of_nat (n + 32) else c.

Fixpoint lower (s : string) : string :=
  match s with
  | EmptyString => EmptyString
  | String c s => String (lower_ascii c) (lower s)
  end.

(** No account, nobody signed in, no reset requested. *)
Definition no_accounts : Auth := mkAuth [] None [].

(** The log is in time order: no entry is later than [bound], and none is
    later than the one before it. *)
Fixpoint newest_first (bound : Z) (l : list ActivityEntry) : Prop :=
  match l with
  | [] => True
  | e :: l => ts e <= bound /\ newest_first (ts e) l
  end.

(** The instant of the last event of a trace that starts at [t0]. *)
Definition end_of (t0 : Z) (tr : list (Z * Event)) : Z :=
  last (map fst tr) t0.

(** The day number of a calendar date: the inverse of [Clock.civil], used
    to show that different days have different dates. *)
Definition days_from_civil (y m d : Z) : Z :=
  let y' := if m <=? 2 then y - 1 else y in
  let era := y' / 400 in
  let yoe := y' - era * 400 in
  let mp := if 2 <? m then m - 3 else m + 9 in
  let doy := (153 * mp + 2) / 5 + d - 1 in
  let doe := yoe * 365 + yoe / 4 - yoe / 100 + doy in
  era * 146097 + doe - 719468.

(** One day, in milliseconds. *)
Definition dayMs : Z := 86400000.

(** * Properties *)

(** ** Basic facts *)


(** Case analysis on every test of the goal. *)
Ltac break_ifs :=
  repeat match goal with
         | |- context [if ?b then _ else _] => destruct b eqn:?
         | |- context [match ?x with Some _ => _ | None => _ end] => destruct x eqn:?
         end.

Lemma utcDateKey_nonempty (ms : Z) : Clock.utcDateKey ms <> "".
Proof.
  unfold Clock.utcDateKey.
  destruct (Clock.civil (Clock.dayOf ms)) as [[y m] d].
  destruct (Clock.str y); simpl; discriminate.
Qed.

(** The date key on a few instants: the epoch, the millisecond before it,
    two leap days and the two sides of a midnight. *)
Example utcDateKey_samples :
  Clock.utcDateKey 0 = "1970-01-01" /\
  Clock.utcDateKey (-1) = "1969-12-31" /\
  Clock.utcDateKey 951782400000 = "2000-02-29" /\
  Clock.utcDateKey 1709251199999 = "2024-02-29" /\
  Clock.utcDateKey (jan2 - 1) = "2024-01-01" /\
  Clock.utcDateKey jan2 = "2024-01-02".
Proof. vm_compute. repeat split. Qed.

(** The end-to-end run of the specification: two ads, then a lease. *)
Example two_ads_then_lease :
  let tr := [(jan1 + 1000, RunTask true true "video"); (jan1 + 2000, TaskTimer 0%nat);
             (jan1 + 3000, RunTask true true "video"); (jan1 + 4000, TaskTimer 0%nat);
             (jan1 + 5000, CreateVps true)] in
  let s := run tr (boot jan1 None 0) in
  balance s = 0 /\ status (vps (state (app s))) = provisioning /\
  vps (state (app (step (jan1 + 6000) CreateTimer s))) = mkVps running 21600 (jan1 + 6000).
Proof. vm_compute. repeat split. Qed.

Lemma repeatable_types (type : string) (cfg : TaskCfg) :
  CFG.tasks type = Some cfg -> String.eqb type "daily" = false ->
  type = "video" \/ type = "short".
Proof.
  unfold CFG.tasks.
  destruct (String.eqb_spec type "video"); [now left|].
  destruct (String.eqb_spec type "short"); [now right|].
  destruct (String.eqb type "daily"); discriminate.
Qed.

Lemma reward_nonneg (type : string) (cfg : TaskCfg) :
  CFG.tasks type = Some cfg -> 0 <= reward cfg.
Proof.
  unfold CFG.tasks.
  repeat match goal with
         | |- context [if ?b then _ else _] => destruct b
         end; intros H; inversion H; simpl; lia.
Qed.

Lemma Status_eqb_spec (x y : Status) : reflect (x = y) (Status_eqb x y).
Proof. destruct x, y; simpl; constructor; congruence. Qed.

(** [ensureDaily] touches the daily window and nothing else. *)
Lemma ensureDaily_frame (now : Z) (a : App) :
  pointsBalance (state (ensureDaily now a)) = pointsBalance (state a) /\
  vps (state (ensureDaily now a)) = vps (state a) /\
  tasks (state (ensureDaily now a)) = tasks (state a) /\
  activity (state (ensureDaily now a)) = activity (state a) /\
  sessionEarned (ensureDaily now a) = sessionEarned a.
Proof.
  unfold ensureDaily.
  destruct (negb _); simpl; repeat split.
Qed.

Lemma ensureDaily_utcDate (now : Z) (a : App) :
  utcDate (daily (state (ensureDaily now a))) = Clock.utcDateKey now.
Proof.
  unfold ensureDaily.
  destruct (String.eqb_spec (utcDate (daily (state a))) (Clock.utcDateKey now));
    simpl; auto.
Qed.

Lemma ensureDaily_same_day (now : Z) (a : App) :
  utcDate (daily (state a)) = Clock.utcDateKey now -> ensureDaily now a = a.
Proof.
  intros H. unfold ensureDaily. rewrite H, String.eqb_refl. reflexivity.
Qed.

Lemma ensureDaily_rollover (now : Z) (a : App) :
  utcDate (daily (state a)) <> Clock.utcDateKey now ->
  ensureDaily now a =
  toast_show DailyRefreshed (set_state (with_daily (mkDaily (Clock.utcDateKey now) 0 "")) a).
Proof.
  intros H. unfold ensureDaily.
  destruct (String.eqb_spec (utcDate (daily (state a))) (Clock.utcDateKey now));
    [contradiction | reflexivity].
Qed.

(** ** The reconciliation tick *)

Lemma tick_vps_eq (now : Z) (a : App) :
  vps (state (tick now a)) = fst (tick_vps now (vps (state a))).
Proof.
  unfold tick.
  destruct (ensureDaily_frame now a) as (_ & Hv & _).
  rewrite Hv.
  destruct (tick_vps now (vps (state a))) as [v [|]]; reflexivity.
Qed.

Lemma tick_frame (now : Z) (a : App) :
  pointsBalance (state (tick now a)) = pointsBalance (state a) /\
  tasks (state (tick now a)) = tasks (state a) /\
  activity (state (tick now a)) = activity (state a) /\
  daily (state (tick now a)) = daily (state (ensureDaily now a)) /\
  sessionEarned (tick now a) = sessionEarned a.
Proof.
  unfold tick.
  destruct (ensureDaily_frame now a) as (Hb & _ & Ht & Ha & Hs).
  destruct (tick_vps now (vps (state (ensureDaily now a)))) as [v [|]]; simpl;
    rewrite Hb, Ht, Ha, Hs; repeat split.
Qed.

(** The countdown on a running lease whose clock has not gone backwards. *)
Lemma tick_vps_running (now : Z) (v : Vps) :
  status v = running -> 0 < timeLeftSec v -> 0 < lastTickMs v <= now ->
  let elapsed := (now - lastTickMs v) / 1000 in
  fst (tick_vps now v) =
    if timeLeftSec v - elapsed <=? 0 then mkVps stopped 0 now
    else mkVps running (timeLeftSec v - elapsed) (lastTickMs v + elapsed * 1000).
Proof.
  intros Hs Hp Hc elapsed. unfold tick_vps.
  rewrite Hs. simpl Status_eqb.
  destruct (Z.ltb_spec 0 (timeLeftSec v)); [|lia]. simpl andb.
  destruct (Z.eqb_spec (lastTickMs v) 0); [lia|].
  fold elapsed.
  assert (0 <= elapsed) by (apply Z.div_pos; lia).
  destruct (Z.ltb_spec 0 elapsed).
  - simpl timeLeftSec.
    destruct (Z.leb_spec (timeLeftSec v - elapsed) 0).
    + rewrite Z.max_l by lia. reflexivity.
    + rewrite Z.max_r by lia.
      destruct (Z.leb_spec (timeLeftSec v - elapsed) 0); [lia|].
      reflexivity.
  - assert (elapsed = 0) by lia.
    replace (timeLeftSec v - elapsed) with (timeLeftSec v) by lia.
    destruct (Z.leb_spec (timeLeftSec v) 0); [lia|].
    destruct v; simpl in *. subst. f_equal. lia.
Qed.

(** C1 (as amended).  On a running lease with time left and a last
    reconciliation instant not in the future, one tick subtracts the whole
    elapsed seconds, floored at 0.  While time remains the lease stays
    running and the last reconciliation instant advances by exactly those
    whole seconds, so that the sub-second remainder is kept; when the time
    reaches 0 the lease is stopped in the same tick and the instant is set
    to the current time.  From 3600 seconds, a tick 1500 s later leaves 2100
    running, and a tick 2200 s after that leaves 0 stopped. *)
Theorem tick_countdown (now : Z) (a : App)
    (Hrun : status (vps (state a)) = running)
    (Hpos : 0 < timeLeftSec (vps (state a)))
    (Hclock : 0 < lastTickMs (vps (state a)) <= now) :
  let v := vps (state a) in
  let v' := vps (state (tick now a)) in
  let elapsed := (now - lastTickMs v) / 1000 in
  timeLeftSec v' = Z.max 0 (timeLeftSec v - elapsed) /\
  (0 < timeLeftSec v' ->
     status v' = running /\
     lastTickMs v' = lastTickMs v + elapsed * 1000 /\
     now - lastTickMs v' = (now - lastTickMs v) mod 1000) /\
  (timeLeftSec v' = 0 -> status v' = stopped /\ lastTickMs v' = now) /\
  (timeLeftSec v = 3600 -> now = lastTickMs v + 1500 * 1000 ->
     timeLeftSec v' = 2100 /\ status v' = running /\
     let v'' := vps (state (tick (now + 2200 * 1000) (tick now a))) in
     timeLeftSec v'' = 0 /\ status v'' = stopped).
Proof.
  intros v v' elapsed.
  assert (E : v' = if timeLeftSec v - elapsed <=? 0 then mkVps stopped 0 now
                   else mkVps running (timeLeftSec v - elapsed)
                                      (lastTickMs v + elapsed * 1000)).
  { unfold v'. rewrite tick_vps_eq. now apply tick_vps_running. }
  assert (Hmod : now - (lastTickMs v + elapsed * 1000) = (now - lastTickMs v) mod 1000).
  { unfold elapsed. rewrite Z.mod_eq by lia. lia. }
  split; [|split; [|split]].
  - rewrite E. destruct (Z.leb_spec (timeLeftSec v - elapsed) 0); simpl; lia.
  - rewrite E. destruct (Z.leb_spec (timeLeftSec v - elapsed) 0); simpl; intros; [lia|].
    auto.
  - rewrite E. destruct (Z.leb_spec (timeLeftSec v - elapsed) 0); simpl; intros; [auto|lia].
  - intros H36 Hnow.
    assert (Hel : elapsed = 1500).
    { unfold elapsed. symmetry. apply Z.div_unique with (r := 0); lia. }
    rewrite Hel, H36 in E.
    change (3600 - 1500 <=? 0) with false in E. cbv iota in E.
    assert (E2 : vps (state (tick (now + 2200 * 1000) (tick now a)))
                 = mkVps stopped 0 (now + 2200 * 1000)).
    { rewrite tick_vps_eq. fold v'. rewrite E.
      rewrite tick_vps_running
        by (cbn [status timeLeftSec lastTickMs]; first [reflexivity | unfold v in *; lia]).
      cbn [timeLeftSec lastTickMs].
      replace ((now + 2200 * 1000 - (lastTickMs v + 1500 * 1000)) / 1000) with 2200
        by (apply Z.div_unique with (r := 0); lia).
      destruct (Z.leb_spec (3600 - 1500 - 2200) 0); [reflexivity|lia]. }
    cbv zeta. rewrite E2, E. cbn [status timeLeftSec]. repeat split; lia.
Qed.

Lemma tick_countdown_witness :
  let a := app_with 0 (mkVps running 3600 jan1) "2024-01-01" in
  let a1 := tick (jan1 + 1500 * 1000) a in
  let a2 := tick (jan1 + 1500 * 1000 + 2200 * 1000) a1 in
  (timeLeftSec (vps (state a1)) = 2100 /\ status (vps (state a1)) = running) /\
  (timeLeftSec (vps (state a2)) = 0 /\ status (vps (state a2)) = stopped).
Proof.
  intros a a1 a2.
  destruct (tick_countdown (jan1 + 1500 * 1000) a) as (_ & _ & _ & H).
  - reflexivity.
  - reflexivity.
  - split; [reflexivity | discriminate].
  - destruct H as (H1 & H2 & H3 & H4); [reflexivity | reflexivity |].
    exact (conj (conj H1 H2) (conj H3 H4)).
Defined.

(** C1 as stated fails when the lease expires: the last reconciliation
    instant is then set to the current time, not advanced by the whole
    elapsed seconds.  Running with 10 s left, last reconciled at 1000 ms,
    ticked at 20500 ms: 19 whole seconds have elapsed, the lease stops with
    0 s, and the instant is 20500, not 1000 + 19 * 1000. *)
Lemma tick_expiry_not_whole_seconds :
  let a := app_with 0 (mkVps running 10 1000) "1970-01-01" in
  let v' := vps (state (tick 20500 a)) in
  (20500 - lastTickMs (vps (state a))) / 1000 = 19 /\
  timeLeftSec v' = 0 /\ status v' = stopped /\
  lastTickMs v' = 20500 /\
  lastTickMs v' <> lastTickMs (vps (state a)) + 19 * 1000.
Proof. vm_compute. repeat split; discriminate. Qed.

(** ** The activity log *)

Lemma firstn_app_firstn {A} (n : nat) (l m : list A) :
  firstn n (l ++ firstn n m)%list = firstn n (l ++ m)%list.
Proof.
  rewrite !firstn_app, firstn_firstn.
  f_equal. f_equal. lia.
Qed.

Lemma pushActivity_activity (now : Z) (lbl : string) (d : Z) (a : App) :
  activity (state (pushActivity now lbl d a)) =
  firstn CFG.activityMax (mkEntry lbl d now :: activity (state a)).
Proof. reflexivity. Qed.

Lemma pushActivity_length (now : Z) (lbl : string) (d : Z) (a : App) :
  (List.length (activity (state (pushActivity now lbl d a))) <= CFG.activityMax)%nat.
Proof. rewrite pushActivity_activity. apply firstn_le_length. Qed.

Lemma pushAll_after_push (es : list (Z * string * Z)) (e : Z * string * Z) (a : App) :
  activity (state (pushAll es (pushActivity (fst (fst e)) (snd (fst e)) (snd e) a))) =
  firstn CFG.activityMax (rev (map entry_of es) ++ entry_of e :: activity (state a))%list.
Proof.
  revert e a. induction es as [|e2 es IH]; intros e a.
  - reflexivity.
  - change (pushAll (e2 :: es) ?x)
      with (pushAll es (pushActivity (fst (fst e2)) (snd (fst e2)) (snd e2) x)).
    rewrite IH, pushActivity_activity. fold (entry_of e).
    simpl rev. rewrite <- !app_assoc. simpl app.
    change (rev (map entry_of es) ++ entry_of e2 :: ?l)%list
      with (rev (map entry_of es) ++ [entry_of e2] ++ l)%list.
    rewrite !app_assoc.
    apply firstn_app_firstn.
Qed.

(** After at least one call the log is the newest entries first, then the
    old log, cut at the retention bound. *)
Lemma pushAll_activity (es : list (Z * string * Z)) (a : App) :
  es <> [] ->
  activity (state (pushAll es a)) =
  firstn CFG.activityMax (rev (map entry_of es) ++ activity (state a))%list.
Proof.
  destruct es as [|e es]; [congruence|]. intros _.
  change (pushAll (e :: es) a)
    with (pushAll es (pushActivity (fst (fst e)) (snd (fst e)) (snd e) a)).
  rewrite pushAll_after_push. simpl rev. rewrite <- app_assoc. reflexivity.
Qed.

(** *** What each piece of code does to the log *)

Lemma ensureDaily_log_ok now a : log_ok a -> log_ok (ensureDaily now a).
Proof.
  unfold log_ok. destruct (ensureDaily_frame now a) as (_ & _ & _ & -> & _). auto.
Qed.

Lemma runTask_begin_log_ok li b now type a :
  log_ok a -> log_ok (fst (runTask_begin li b now type a)).
Proof.
  intros H. apply (ensureDaily_log_ok now) in H.
  unfold runTask_begin. break_ifs; simpl; exact H.
Qed.

Lemma runTask_resume_log_ok now p a : log_ok (runTask_resume now p a).
Proof.
  unfold runTask_resume, log_ok. break_ifs; cbn -[firstn]; apply firstn_le_length.
Qed.

Lemma createVps_begin_log_ok li a : log_ok a -> log_ok (fst (createVps_begin li a)).
Proof. intros H. unfold createVps_begin. break_ifs; simpl; exact H. Qed.

Lemma createVps_resume_log_ok now a : log_ok (createVps_resume now a).
Proof. unfold createVps_resume, log_ok. cbn -[firstn]. apply firstn_le_length. Qed.

Lemma stopVps_begin_log_ok li a : log_ok a -> log_ok (fst (stopVps_begin li a)).
Proof. intros H. unfold stopVps_begin. break_ifs; simpl; exact H. Qed.

Lemma stopVps_resume_log_ok ok now a : log_ok a -> log_ok (stopVps_resume ok now a).
Proof. intros H. unfold stopVps_resume. break_ifs; simpl; exact H. Qed.

Lemma extendVps_log_ok li now a : log_ok a -> log_ok (extendVps li now a).
Proof.
  intros H. unfold extendVps. break_ifs; try exact H.
  unfold log_ok. cbn -[firstn]. apply firstn_le_length.
Qed.

Lemma tick_log_ok now a : log_ok a -> log_ok (tick now a).
Proof.
  unfold log_ok. destruct (tick_frame now a) as (_ & _ & -> & _). auto.
Qed.

Lemma step_log_ok now e s : log_ok (app s) -> log_ok (app (step now e s)).
Proof.
  intros H. destruct e; simpl.
  - pose proof (runTask_begin_log_ok loggedIn btnOk now type (app s) H) as H'.
    destruct (runTask_begin loggedIn btnOk now type (app s)); exact H'.
  - destruct (nth_error (tasksWaiting s) i); [apply runTask_resume_log_ok | exact H].
  - pose proof (createVps_begin_log_ok loggedIn (app s) H) as H'.
    destruct (createVps_begin loggedIn (app s)); exact H'.
  - destruct (createsWaiting s); [exact H | apply createVps_resume_log_ok].
  - pose proof (stopVps_begin_log_ok loggedIn (app s) H) as H'.
    destruct (stopVps_begin loggedIn (app s)); exact H'.
  - destruct (stopsWaiting s); [exact H | now apply stopVps_resume_log_ok].
  - now apply extendVps_log_ok.
  - now apply tick_log_ok.
Qed.

(** C9.  Every call of [pushActivity] leaves at most 6 entries; after at
    least 6 calls the log is exactly the 6 most recent entries, newest
    first, whatever it held before; and no event of the engine makes a log
    of at most 6 entries longer than 6. *)
Theorem activity_log_bounded :
  (forall now lbl d a,
     (List.length (activity (state (pushActivity now lbl d a))) <= 6)%nat) /\
  (forall es a,
     (6 <= List.length es)%nat ->
     activity (state (pushAll es a)) = firstn 6 (rev (map entry_of es)) /\
     List.length (activity (state (pushAll es a))) = 6%nat) /\
  (forall tr s,
     (List.length (activity (state (app s))) <= 6)%nat ->
     (List.length (activity (state (app (run tr s)))) <= 6)%nat).
Proof.
  split; [|split].
  - intros. apply pushActivity_length.
  - intros es a Hlen.
    assert (Hne : es <> []) by (destruct es; simpl in *; [lia | discriminate]).
    rewrite (pushAll_activity es a Hne).
    assert (Hr : (6 <= List.length (rev (map entry_of es)))%nat)
      by (now rewrite length_rev, length_map).
    unfold CFG.activityMax. rewrite firstn_app.
    replace (6 - List.length (rev (map entry_of es)))%nat with 0%nat by lia.
    rewrite firstn_O, app_nil_r.
    split; [reflexivity|]. rewrite firstn_length_le; auto.
  - intros tr. induction tr as [|[now e] tr IH]; intros s H.
    + exact H.
    + simpl. apply IH. now apply step_log_ok.
Qed.

Lemma activity_log_bounded_witness :
  let es := [(1, "a", 5); (2, "b", 5); (3, "c", -10); (4, "d", 2);
             (5, "e", 2); (6, "f", 10); (7, "g", -50)] in
  activity (state (pushAll es (app_with 0 (mkVps stopped 0 0) "1970-01-01"))) =
  [mkEntry "g" (-50) 7; mkEntry "f" 10 6; mkEntry "e" 2 5;
   mkEntry "d" 2 4; mkEntry "c" (-10) 3; mkEntry "b" 5 2].
Proof.
  intros es.
  destruct activity_log_bounded as (_ & H & _).
  destruct (H es (app_with 0 (mkVps stopped 0 0) "1970-01-01")) as [E _].
  - simpl. lia.
  - rewrite E. reflexivity.
Defined.

(** ** The points balance *)

Lemma runTask_begin_balance li b now type a :
  pointsBalance (state (fst (runTask_begin li b now type a))) = pointsBalance (state a).
Proof.
  destruct (ensureDaily_frame now a) as (H & _).
  unfold runTask_begin. break_ifs; simpl; exact H.
Qed.

Lemma runTask_begin_pending li b now type a p :
  snd (runTask_begin li b now type a) = Some p ->
  p = mkPending type (p_cfg p) (Clock.utcDateKey now) /\
  CFG.tasks type = Some (p_cfg p).
Proof.
  unfold runTask_begin.
  destruct (negb li); [discriminate|].
  destruct (CFG.tasks type) as [cfg|]; [|discriminate].
  break_ifs; simpl; try discriminate.
  all: intros H; inversion H; subst; simpl; auto.
Qed.

Lemma runTask_resume_balance now p a :
  pointsBalance (state (runTask_resume now p a)) = pointsBalance (state a) + reward (p_cfg p).
Proof.
  unfold runTask_resume.
  match goal with
  | |- context [ensureDaily now ?x] =>
      destruct (ensureDaily_frame now x) as (H & _)
  end.
  break_ifs; cbn -[firstn ensureDaily]; exact H.
Qed.

Lemma createVps_begin_balance li a :
  0 <= pointsBalance (state a) ->
  0 <= pointsBalance (state (fst (createVps_begin li a))).
Proof.
  intros H. unfold createVps_begin, CFG.redeem_points.
  destruct (negb li); [exact H|].
  destruct (_ || _); [exact H|].
  destruct (Z.ltb_spec (pointsBalance (state a)) 10); simpl; lia.
Qed.

Lemma extendVps_balance li now a :
  0 <= pointsBalance (state a) ->
  0 <= pointsBalance (state (extendVps li now a)).
Proof.
  intros H. unfold extendVps, CFG.extend_points.
  destruct (negb li); [exact H|].
  destruct (_ <=? 0); [exact H|].
  destruct (Z.ltb_spec (pointsBalance (state a)) 50); cbn -[firstn]; lia.
Qed.

Lemma remove_nth_Forall {A} (P : A -> Prop) (i : nat) (l : list A) :
  Forall P l -> Forall P (remove_nth i l).
Proof.
  intros H. revert i. induction H as [|x l Hx Hl IH]; intros [|i]; simpl; auto.
Qed.

Lemma step_balance now e s :
  0 <= balance s -> waiting_ok s ->
  0 <= balance (step now e s) /\ waiting_ok (step now e s).
Proof.
  unfold balance, waiting_ok. intros Hb Hw. destruct e; unfold step.
  - pose proof (runTask_begin_balance loggedIn btnOk now type (app s)) as H1.
    pose proof (runTask_begin_pending loggedIn btnOk now type (app s)) as H2.
    destruct (runTask_begin loggedIn btnOk now type (app s)) as [a' [p|]];
      cbn [fst snd app tasksWaiting] in *; rewrite H1; split; auto.
    apply Forall_app; split; auto.
    constructor; [|constructor].
    destruct (H2 p eq_refl) as [E1 E2]. rewrite E1. exact E2.
  - destruct (nth_error (tasksWaiting s) i) as [p|] eqn:E; [|auto].
    cbn [app tasksWaiting]. rewrite runTask_resume_balance. split.
    + apply nth_error_In in E.
      rewrite Forall_forall in Hw. apply Hw in E.
      apply reward_nonneg in E. lia.
    + now apply remove_nth_Forall.
  - pose proof (createVps_begin_balance loggedIn (app s) Hb) as H1.
    destruct (createVps_begin loggedIn (app s)); cbn [fst app tasksWaiting] in *; auto.
  - destruct (createsWaiting s); cbn [app tasksWaiting]; auto.
  - unfold stopVps_begin. break_ifs; cbn [app tasksWaiting]; auto.
  - destruct (stopsWaiting s); cbn [app tasksWaiting]; auto.
    unfold stopVps_resume. break_ifs; auto.
  - cbn [app tasksWaiting]. split; [now apply extendVps_balance | auto].
  - cbn [app tasksWaiting]. destruct (tick_frame now (app s)) as (-> & _). auto.
Qed.

(** The sufficiency check of [createVps] on a stopped lease. *)
Lemma createVps_debit (a : App) :
  status (vps (state a)) = stopped ->
  ((exists need, createVps_begin true a = (toast_show (InsufficientFunds need) a, false))
     <-> pointsBalance (state a) < 10) /\
  (10 <= pointsBalance (state a) ->
     pointsBalance (state (fst (createVps_begin true a))) = pointsBalance (state a) - 10).
Proof.
  intros Hs. unfold createVps_begin, CFG.redeem_points. rewrite Hs. simpl.
  destruct (Z.ltb_spec (pointsBalance (state a)) 10); split.
  - split; [auto | eauto].
  - lia.
  - split; [|lia]. intros [need H']. discriminate.
  - reflexivity.
Qed.

(** The sufficiency check of [extendVps] when there is time to extend. *)
Lemma extendVps_debit (now : Z) (a : App) :
  0 < timeLeftSec (vps (state a)) ->
  ((exists need, extendVps true now a = toast_show (InsufficientFunds need) a)
     <-> pointsBalance (state a) < 50) /\
  (50 <= pointsBalance (state a) ->
     pointsBalance (state (extendVps true now a)) = pointsBalance (state a) - 50).
Proof.
  intros Ht. unfold extendVps, CFG.extend_points. simpl negb. cbv iota.
  destruct (Z.leb_spec (timeLeftSec (vps (state a))) 0); [lia|].
  destruct (Z.ltb_spec (pointsBalance (state a)) 50); split.
  - split; [auto | eauto].
  - lia.
  - split; [|lia]. intros [need H']. apply (f_equal shown) in H'.
    cbn -[firstn] in H'. discriminate.
  - reflexivity.
Qed.

(** C2.  Along every trace of events the points balance stays
    non-negative.  The debit of [createVps] (cost 10) is refused, with the
    state left as it was, exactly when the balance is below the cost, and
    otherwise takes exactly the cost; likewise the debit of [extendVps]
    (cost 50). *)
Theorem balance_never_negative :
  (forall tr s, 0 <= balance s -> waiting_ok s -> 0 <= balance (run tr s)) /\
  (forall a, status (vps (state a)) = stopped ->
     ((exists need, createVps_begin true a = (toast_show (InsufficientFunds need) a, false))
        <-> pointsBalance (state a) < 10) /\
     (10 <= pointsBalance (state a) ->
        pointsBalance (state (fst (createVps_begin true a))) = pointsBalance (state a) - 10)) /\
  (forall now a, 0 < timeLeftSec (vps (state a)) ->
     ((exists need, extendVps true now a = toast_show (InsufficientFunds need) a)
        <-> pointsBalance (state a) < 50) /\
     (50 <= pointsBalance (state a) ->
        pointsBalance (state (extendVps true now a)) = pointsBalance (state a) - 50)).
Proof.
  split; [|split].
  - intros tr. induction tr as [|[now e] tr IH]; intros s Hb Hw; [exact Hb|].
    simpl. destruct (step_balance now e s Hb Hw). auto.
  - exact createVps_debit.
  - exact extendVps_debit.
Qed.

Lemma balance_never_negative_witness :
  let s0 := boot jan1 None 0 in
  let tr := [(jan1 + 1000, RunTask true true "video"); (jan1 + 2000, TaskTimer 0%nat);
             (jan1 + 3000, RunTask true true "video"); (jan1 + 4000, TaskTimer 0%nat);
             (jan1 + 5000, CreateVps true); (jan1 + 6000, CreateTimer);
             (jan1 + 7000, ExtendVps true); (jan1 + 8000, CreateVps true)] in
  0 <= balance (run tr s0) /\
  (exists need, createVps_begin true (app s0) =
                (toast_show (InsufficientFunds need) (app s0), false)).
Proof.
  intros s0 tr. destruct balance_never_negative as (H1 & H2 & _). split.
  - apply H1; [vm_compute; discriminate | constructor].
  - apply (H2 (app s0)); [reflexivity | vm_compute; reflexivity].
Defined.

(** ** Creating, stopping and extending the lease *)

Lemma tick_vps_not_running (now : Z) (v : Vps) :
  status v <> running -> tick_vps now v = (v, false).
Proof.
  intros H. unfold tick_vps. destruct (status v); try reflexivity. congruence.
Qed.

(** Points are credited by the completion of a task and by nothing else:
    no other event raises the balance. *)
Lemma step_no_refund (now : Z) (e : Event) (s : Sys) :
  (forall i, e <> TaskTimer i) -> balance (step now e s) <= balance s.
Proof.
  unfold balance. intros He. destruct e; unfold step.
  - pose proof (runTask_begin_balance loggedIn btnOk now type (app s)) as H.
    destruct (runTask_begin loggedIn btnOk now type (app s)); cbn [fst app] in *. lia.
  - now destruct (He i).
  - unfold createVps_begin, CFG.redeem_points. break_ifs; simpl; lia.
  - destruct (createsWaiting s); cbn -[firstn]; lia.
  - unfold stopVps_begin. break_ifs; simpl; lia.
  - destruct (stopsWaiting s); [simpl; lia|].
    unfold stopVps_resume. break_ifs; simpl; lia.
  - unfold extendVps, CFG.extend_points. break_ifs; cbn -[firstn Z.sub]; lia.
  - cbn [app]. destruct (tick_frame now (app s)) as (-> & _). lia.
Qed.

(** C5.  [createVps] (user logged in) is refused with "already
    running/provisioning", the state untouched, whenever the lease is
    provisioning or running.  On a stopped lease it is refused for lack of
    points exactly when the balance is below 10.  With a balance of exactly
    10 the part before the delay takes the balance to 0 and makes the lease
    provisioning, and nothing else changes; whenever the continuation then
    runs, at clock value [now], the lease is running with 21600 seconds and
    last reconciled at [now], and the balance is still 0.  The points taken
    are never given back: no event other than the completion of a task
    raises the balance. *)
Theorem createVps_spec (a : App) :
  (status (vps (state a)) = provisioning \/ status (vps (state a)) = running ->
     createVps_begin true a = (toast_show AlreadyActive a, false)) /\
  (status (vps (state a)) = stopped ->
     ((exists need, createVps_begin true a = (toast_show (InsufficientFunds need) a, false))
        <-> pointsBalance (state a) < 10)) /\
  (status (vps (state a)) = stopped -> pointsBalance (state a) = 10 ->
     exists a1,
       createVps_begin true a = (a1, true) /\
       pointsBalance (state a1) = 0 /\
       status (vps (state a1)) = provisioning /\
       timeLeftSec (vps (state a1)) = timeLeftSec (vps (state a)) /\
       lastTickMs (vps (state a1)) = lastTickMs (vps (state a)) /\
       daily (state a1) = daily (state a) /\
       tasks (state a1) = tasks (state a) /\
       activity (state a1) = activity (state a) /\
       forall now,
         let a2 := createVps_resume now a1 in
         status (vps (state a2)) = running /\
         timeLeftSec (vps (state a2)) = 21600 /\
         lastTickMs (vps (state a2)) = now /\
         pointsBalance (state a2) = 0) /\
  (forall now e s, (forall i, e <> TaskTimer i) -> balance (step now e s) <= balance s).
Proof.
  split; [|split; [|split]]; [| | |exact step_no_refund].
  - intros [H|H]; unfold createVps_begin; rewrite H; reflexivity.
  - intros H. apply (proj1 (createVps_debit a H)).
  - intros Hs Hb. unfold createVps_begin, CFG.redeem_points. rewrite Hs, Hb.
    cbn [negb Status_eqb orb Z.ltb Z.compare Pos.compare Pos.compare_cont].
    eexists. split; [reflexivity|].
    cbn -[firstn Z.sub]. rewrite Hb. repeat split.
Qed.

Lemma createVps_spec_witness :
  let a := app_with 10 (mkVps stopped 0 jan1) "2024-01-01" in
  exists a1,
    createVps_begin true a = (a1, true) /\
    pointsBalance (state a1) = 0 /\
    status (vps (state a1)) = provisioning /\
    timeLeftSec (vps (state (createVps_resume (jan1 + 1000) a1))) = 21600.
Proof.
  intros a.
  destruct (createVps_spec a) as (_ & _ & H & _).
  destruct H as (a1 & E & Hb & Hs & _ & _ & _ & _ & _ & Hr);
    [reflexivity | reflexivity |].
  exists a1. split; [exact E|]. split; [exact Hb|]. split; [exact Hs|].
  apply (Hr (jan1 + 1000)).
Defined.

(** C6.  [stopVps] (user logged in) is refused with "not running" unless
    the lease is running.  On a running lease the confirmed stop makes it
    stopped, keeps the seconds left, sets the last reconciliation instant to
    [now] and leaves the balance alone, and later ticks do not touch the
    stopped lease.  An [extendVps] that follows, with seconds left and at
    least 50 points, takes 50 points, adds 3600 seconds and leaves the lease
    stopped.  [extendVps] is refused with "no active time to extend" exactly
    when the seconds left are 0 or less. *)
Theorem stop_then_extend (now : Z) (a : App) :
  (status (vps (state a)) <> running ->
     stopVps_begin true a = (toast_show NotRunning a, false)) /\
  (status (vps (state a)) = running ->
     stopVps_begin true a = (a, true) /\
     let a1 := stopVps_resume true now a in
     status (vps (state a1)) = stopped /\
     timeLeftSec (vps (state a1)) = timeLeftSec (vps (state a)) /\
     lastTickMs (vps (state a1)) = now /\
     pointsBalance (state a1) = pointsBalance (state a) /\
     (forall later, vps (state (tick later a1)) = vps (state a1)) /\
     (0 < timeLeftSec (vps (state a)) -> 50 <= pointsBalance (state a) ->
        forall later,
          let a2 := extendVps true later a1 in
          pointsBalance (state a2) = pointsBalance (state a) - 50 /\
          timeLeftSec (vps (state a2)) = timeLeftSec (vps (state a)) + 3600 /\
          status (vps (state a2)) = stopped)) /\
  (extendVps true now a = toast_show NothingToExtend a
     <-> timeLeftSec (vps (state a)) <= 0).
Proof.
  split; [|split].
  - intros H. unfold stopVps_begin.
    destruct (status (vps (state a))); try reflexivity. congruence.
  - intros H. unfold stopVps_begin. rewrite H. split; [reflexivity|].
    cbn -[tick extendVps]. repeat split.
    + intros later. rewrite tick_vps_eq, tick_vps_not_running; [reflexivity|].
      simpl. discriminate.
    + unfold extendVps, CFG.extend_points. cbn -[firstn Z.add Z.sub Z.leb Z.ltb].
      destruct (Z.leb_spec (timeLeftSec (vps (state a))) 0); [lia|].
      destruct (Z.ltb_spec (pointsBalance (state a)) 50); [lia|]. reflexivity.
    + unfold extendVps, CFG.extend_points. cbn -[firstn Z.add Z.sub Z.leb Z.ltb].
      destruct (Z.leb_spec (timeLeftSec (vps (state a))) 0); [lia|].
      destruct (Z.ltb_spec (pointsBalance (state a)) 50); [lia|]. reflexivity.
    + unfold extendVps, CFG.extend_points. cbn -[firstn Z.add Z.sub Z.leb Z.ltb].
      destruct (Z.leb_spec (timeLeftSec (vps (state a))) 0); [lia|].
      destruct (Z.ltb_spec (pointsBalance (state a)) 50); [lia|]. reflexivity.
  - unfold extendVps. simpl negb. cbv iota.
    destruct (Z.leb_spec (timeLeftSec (vps (state a))) 0); split; auto; try lia.
    intros H'. apply (f_equal shown) in H'. revert H'.
    destruct (_ <? _); cbn -[firstn]; discriminate.
Qed.

Lemma stop_then_extend_witness :
  let a := app_with 60 (mkVps running 1200 jan1) "2024-01-01" in
  let a1 := stopVps_resume true (jan1 + 500) a in
  let a2 := extendVps true (jan1 + 90000) a1 in
  stopVps_begin true a = (a, true) /\
  status (vps (state a1)) = stopped /\
  timeLeftSec (vps (state a1)) = 1200 /\
  pointsBalance (state a2) = 10 /\
  timeLeftSec (vps (state a2)) = 4800 /\
  status (vps (state a2)) = stopped /\
  stopVps_begin true a2 = (toast_show NotRunning a2, false).
Proof.
  intros a a1 a2.
  destruct (stop_then_extend (jan1 + 500) a) as (_ & H & _).
  destruct H as (E & Hs & Ht & _ & _ & _ & Hx); [reflexivity|].
  destruct (Hx ltac:(simpl; lia) ltac:(simpl; lia) (jan1 + 90000)) as (Hb & Ht2 & Hs2).
  destruct (stop_then_extend 0 a2) as (Hn & _).
  split; [exact E|]. split; [exact Hs|]. split; [exact Ht|].
  split; [exact Hb|]. split; [exact Ht2|]. split; [exact Hs2|].
  apply Hn. intros Hr. fold a1 a2 in Hs2. rewrite Hs2 in Hr. discriminate.
Defined.

(** ** The daily bonus *)

Lemma runTask_begin_daily (now : Z) (a : App) :
  runTask_begin true true now "daily" a =
  let a' := ensureDaily now a in
  if String.eqb (dailyClaimedUtcDate (daily (state a'))) (Clock.utcDateKey now)
  then (toast_show AlreadyClaimedToday a', None)
  else (toast_show ProcessingTask a',
        Some (mkPending "daily" daily_cfg (Clock.utcDateKey now))).
Proof.
  unfold runTask_begin. cbn -[ensureDaily].
  destruct (String.eqb _ _); reflexivity.
Qed.




(** C4, evaluated on the code.  The continuation of [runTask] stores the
    date key computed before the delay.  When midnight UTC falls inside the
    delay, the stored claimed date is the day before the clock's date key at
    the moment of the write; the daily window then belongs to the new day,
    with the 10 points counted in it, and the bonus is not marked as
    claimed for that day, so that it is granted a second time on the same
    day. *)
Lemma runTask_daily_stale_today :
  let s := run across_midnight (boot jan1 None 0) in
  let again := [(jan2 + 5000, RunTask true true "daily"); (jan2 + 6000, TaskTimer 0%nat)] in
  Clock.utcDateKey (jan2 - 500) = "2024-01-01" /\
  Clock.utcDateKey (jan2 + 500) = "2024-01-02" /\
  daily (state (app s)) = mkDaily "2024-01-02" 10 "2024-01-01" /\
  dailyClaimedUtcDate (daily (state (app s))) <> Clock.utcDateKey (jan2 + 500) /\
  daily (state (app (run again s))) = mkDaily "2024-01-02" 20 "2024-01-02" /\
  balance (run again s) = 20.
Proof. vm_compute. repeat split. discriminate. Qed.

(** What the start-up normalization guarantees: the claimed date it leaves
    is empty or today. *)
Lemma load_claimed_date (now : Z) (raw : option Stored) :
  dailyClaimedUtcDate (daily (load now raw)) = "" \/
  dailyClaimedUtcDate (daily (load now raw)) = Clock.utcDateKey now.
Proof.
  unfold load. destruct raw as [r|]; [|now left]. cbn [daily].
  match goal with
  | |- context [if negb (String.eqb (dailyClaimedUtcDate ?d) "") && _ then _ else _] =>
      destruct (String.eqb_spec (dailyClaimedUtcDate d) "");
      [now left|];
      destruct (String.eqb_spec (dailyClaimedUtcDate d) (Clock.utcDateKey now));
      [now right | now left]
  end.
Qed.

(** C8, evaluated on the code.  [ensureDaily] compares [utcDate] only.  In
    the state left by the bonus claimed across midnight, the window is
    already on 2024-01-02 and the claimed date is 2024-01-01: neither empty
    nor today.  The tick one second later, and [ensureDaily] itself, leave
    it so, whereas the start-up normalization applied to the same state at
    the same instant clears it. *)
Lemma ensureDaily_keeps_stale_claim :
  let s := run across_midnight (boot jan1 None 0) in
  let now := jan2 + 1000 in
  Clock.utcDateKey now = "2024-01-02" /\
  dailyClaimedUtcDate (daily (state (ensureDaily now (app s)))) = "2024-01-01" /\
  dailyClaimedUtcDate (daily (state (app (step now Tick s)))) = "2024-01-01" /\
  dailyClaimedUtcDate (daily (load now (Some (stored_of (state (app s)))))) = "".
Proof. vm_compute. repeat split. Qed.

(** ** When the seconds left go down *)

Lemma tick_vps_decrease (now : Z) (v : Vps) :
  timeLeftSec (fst (tick_vps now v)) < timeLeftSec v ->
  status v = running /\
  0 < (now - lastTickMs v) / 1000 /\
  timeLeftSec (fst (tick_vps now v)) = Z.max 0 (timeLeftSec v - (now - lastTickMs v) / 1000).
Proof.
  unfold tick_vps.
  destruct (Status_eqb_spec (status v) running) as [Hs|Hs]; [|simpl; lia].
  destruct (Z.ltb_spec 0 (timeLeftSec v)) as [Hp|Hp]; [|simpl; lia].
  cbn [andb].
  destruct (Z.eqb_spec (lastTickMs v) 0) as [E0|E0].
  - replace ((now - now) / 1000) with 0 by (rewrite Z.sub_diag; reflexivity).
    cbn [Z.ltb Z.compare].
    destruct (Z.leb_spec (timeLeftSec v) 0); simpl; lia.
  - destruct (Z.ltb_spec 0 ((now - lastTickMs v) / 1000)) as [Hd|Hd].
    + cbn [timeLeftSec].
      destruct (Z.leb_spec (Z.max 0 (timeLeftSec v - (now - lastTickMs v) / 1000)) 0);
        cbn [fst timeLeftSec]; intros; repeat split; auto; lia.
    + destruct (Z.leb_spec (timeLeftSec v) 0); simpl; lia.
Qed.

Lemma runTask_begin_vps li b now type a :
  vps (state (fst (runTask_begin li b now type a))) = vps (state a).
Proof.
  destruct (ensureDaily_frame now a) as (_ & H & _).
  unfold runTask_begin. break_ifs; simpl; exact H.
Qed.

Lemma runTask_resume_vps now p a :
  vps (state (runTask_resume now p a)) = vps (state a).
Proof.
  unfold runTask_resume.
  match goal with
  | |- context [ensureDaily now ?x] =>
      destruct (ensureDaily_frame now x) as (_ & H & _)
  end.
  break_ifs; cbn -[firstn ensureDaily]; exact H.
Qed.

Lemma createVps_begin_timeLeft li a :
  timeLeftSec (vps (state (fst (createVps_begin li a)))) = timeLeftSec (vps (state a)).
Proof. unfold createVps_begin. break_ifs; reflexivity. Qed.

Lemma stopVps_begin_state li a : state (fst (stopVps_begin li a)) = state a.
Proof. unfold stopVps_begin. break_ifs; reflexivity. Qed.

Lemma stopVps_resume_timeLeft ok now a :
  timeLeftSec (vps (state (stopVps_resume ok now a))) = timeLeftSec (vps (state a)).
Proof. unfold stopVps_resume. break_ifs; reflexivity. Qed.

Lemma extendVps_timeLeft li now a :
  timeLeftSec (vps (state a)) <= timeLeftSec (vps (state (extendVps li now a))).
Proof.
  unfold extendVps, CFG.extend_seconds.
  break_ifs; cbn -[firstn Z.add Z.mul]; lia.
Qed.

(** C7 (as amended).  An engine event lowers the seconds left only in two
    ways: a tick on a running lease, which takes off the whole seconds
    elapsed since the last reconciliation (floored at 0), and the
    completion of [createVps], which sets them to 21600.  Hence, completion
    of [createVps] aside, no event lowers them while the lease is stopped or
    provisioning. *)
Theorem timeLeft_decrease (now : Z) (e : Event) (s : Sys) :
  (timeLeft (step now e s) < timeLeft s ->
     (e = Tick /\ status (vps (state (app s))) = running /\
      0 < (now - lastTickMs (vps (state (app s)))) / 1000 /\
      timeLeft (step now e s) =
        Z.max 0 (timeLeft s - (now - lastTickMs (vps (state (app s)))) / 1000))
     \/ (e = CreateTimer /\ timeLeft (step now e s) = 21600)) /\
  (status (vps (state (app s))) <> running -> e <> CreateTimer ->
     timeLeft s <= timeLeft (step now e s)).
Proof.
  assert (Main : timeLeft (step now e s) < timeLeft s ->
     (e = Tick /\ status (vps (state (app s))) = running /\
      0 < (now - lastTickMs (vps (state (app s)))) / 1000 /\
      timeLeft (step now e s) =
        Z.max 0 (timeLeft s - (now - lastTickMs (vps (state (app s)))) / 1000))
     \/ (e = CreateTimer /\ timeLeft (step now e s) = 21600)).
  { unfold timeLeft. destruct e; unfold step.
    - pose proof (runTask_begin_vps loggedIn btnOk now type (app s)) as H.
      destruct (runTask_begin loggedIn btnOk now type (app s)); cbn [fst app] in *.
      rewrite H. lia.
    - destruct (nth_error (tasksWaiting s) i); cbn [app]; [|lia].
      rewrite runTask_resume_vps. lia.
    - pose proof (createVps_begin_timeLeft loggedIn (app s)) as H.
      destruct (createVps_begin loggedIn (app s)); cbn [fst app] in *.
      rewrite H. lia.
    - destruct (createsWaiting s); cbn [app]; [lia|].
      intros _. right. split; reflexivity.
    - pose proof (stopVps_begin_state loggedIn (app s)) as H.
      destruct (stopVps_begin loggedIn (app s)); cbn [fst app] in *.
      rewrite H. lia.
    - destruct (stopsWaiting s); cbn [app]; [lia|].
      rewrite stopVps_resume_timeLeft. lia.
    - cbn [app]. pose proof (extendVps_timeLeft loggedIn now (app s)). lia.
    - cbn [app]. rewrite tick_vps_eq. intros H.
      left. split; [reflexivity|]. now apply tick_vps_decrease. }
  split; [exact Main|].
  intros Hs He.
  destruct (Z.le_gt_cases (timeLeft s) (timeLeft (step now e s))) as [|Hlt]; [assumption|].
  destruct (Main Hlt) as [(_ & Hr & _) | (Hc & _)]; contradiction.
Qed.

Lemma timeLeft_decrease_witness :
  let s := mkSys (app_with 0 (mkVps running 100 jan1) "2024-01-01") [] 0 0 in
  timeLeft (step (jan1 + 30500) Tick s) = Z.max 0 (100 - 30) /\
  timeLeft (mkSys (app_with 0 (mkVps stopped 100 jan1) "2024-01-01") [] 0 0)
    <= timeLeft (step (jan1 + 30500) Tick
                   (mkSys (app_with 0 (mkVps stopped 100 jan1) "2024-01-01") [] 0 0)).
Proof.
  intros s. split.
  - destruct (timeLeft_decrease (jan1 + 30500) Tick s) as [H _].
    destruct H as [(_ & _ & _ & H) | (H & _)]; [vm_compute; reflexivity | exact H | discriminate].
  - apply (timeLeft_decrease (jan1 + 30500) Tick); [simpl; discriminate | discriminate].
Defined.

(** C7 as stated fails on the completion of [createVps].  After fourteen
    ads, a lease created, extended and stopped, the stopped lease holds
    25200 seconds; a second [createVps] makes it provisioning with those
    seconds, and its completion leaves 21600. *)
Lemma createVps_lowers_paused_time :
  let s := run recreate_on_paused_time (boot jan1 None 0) in
  status (vps (state (app s))) = provisioning /\
  timeLeft s = 25200 /\
  createsWaiting s = 1%nat /\
  timeLeft (step (jan1 + 71100) CreateTimer s) = 21600 /\
  timeLeft (step (jan1 + 71100) CreateTimer s) < timeLeft s.
Proof. vm_compute. repeat split. Qed.

(** ** Refused operations *)

Lemma runTask_begin_refused li b now type a a' :
  runTask_begin li b now type a = (a', None) ->
  state a' = state (ensureDaily now a) /\ sessionEarned a' = sessionEarned a.
Proof.
  destruct (ensureDaily_frame now a) as (_ & _ & _ & _ & Hs).
  unfold runTask_begin. break_ifs; intros H; inversion H; subst; simpl; auto.
Qed.

(** C10 (as amended).  An operation that is refused by one of its guards
    has made no change of its own.  A refused [createVps], [stopVps] or
    [extendVps] leaves the state exactly as it was.  A refused [runTask]
    leaves the state that its opening [ensureDaily] produced: balance,
    lease, cooldowns, log and session counter are as before the call, and
    so is the daily window unless the UTC day has changed since it was last
    reconciled; a refusal of the daily bonus as already claimed leaves the
    whole state as it was. *)
Theorem refused_operations_change_nothing :
  (forall li b now type a a',
     runTask_begin li b now type a = (a', None) ->
     state a' = state (ensureDaily now a) /\
     sessionEarned a' = sessionEarned a /\
     pointsBalance (state a') = pointsBalance (state a) /\
     vps (state a') = vps (state a) /\
     tasks (state a') = tasks (state a) /\
     activity (state a') = activity (state a) /\
     (utcDate (daily (state a)) = Clock.utcDateKey now -> state a' = state a)) /\
  (forall now a,
     runTask_begin true true now "daily" a
       = (toast_show AlreadyClaimedToday (ensureDaily now a), None) ->
     ensureDaily now a = a) /\
  (forall li a a', createVps_begin li a = (a', false) ->
     state a' = state a /\ sessionEarned a' = sessionEarned a) /\
  (forall li a a', stopVps_begin li a = (a', false) ->
     state a' = state a /\ sessionEarned a' = sessionEarned a) /\
  (forall li now a,
     li = false \/ timeLeftSec (vps (state a)) <= 0 \/ pointsBalance (state a) < 50 ->
     state (extendVps li now a) = state a /\
     sessionEarned (extendVps li now a) = sessionEarned a).
Proof.
  split; [|split; [|split; [|split]]].
  - intros li b now type a a' H.
    destruct (runTask_begin_refused _ _ _ _ _ _ H) as [Hst Hse].
    destruct (ensureDaily_frame now a) as (Hb & Hv & Ht & Ha & _).
    rewrite Hst. repeat split; auto.
    intros Hd. now rewrite ensureDaily_same_day.
  - intros now a H.
    destruct (String.eqb_spec (utcDate (daily (state a))) (Clock.utcDateKey now)) as [E|E].
    + now apply ensureDaily_same_day.
    + exfalso. rewrite runTask_begin_daily in H. cbv zeta in H.
      rewrite (ensureDaily_rollover now a E) in H. cbn in H.
      pose proof (utcDateKey_nonempty now) as Hne.
      destruct (Clock.utcDateKey now); [congruence | discriminate].
  - intros li a a'. unfold createVps_begin.
    break_ifs; intros H; inversion H; subst; auto.
  - intros li a a'. unfold stopVps_begin.
    break_ifs; intros H; inversion H; subst; auto.
  - intros li now a H. unfold extendVps, CFG.extend_points.
    destruct li; cbn [negb]; [|auto].
    destruct (Z.leb_spec (timeLeftSec (vps (state a))) 0); [auto|].
    destruct (Z.ltb_spec (pointsBalance (state a)) 50); [auto|].
    destruct H as [H | [H | H]]; [discriminate | lia | lia].
Qed.

Lemma refused_operations_change_nothing_witness :
  let a := app_with 3 (mkVps running 100 jan1) "2024-01-01" in
  state (fst (createVps_begin true a)) = state a /\
  state (fst (stopVps_begin true (app_with 3 (mkVps stopped 100 jan1) "2024-01-01")))
    = state (app_with 3 (mkVps stopped 100 jan1) "2024-01-01") /\
  state (extendVps true (jan1 + 5) a) = state a.
Proof.
  intros a.
  destruct refused_operations_change_nothing as (_ & _ & Hc & Hs & He).
  split; [|split].
  - apply (Hc true a (fst (createVps_begin true a))). reflexivity.
  - apply (Hs true _ (fst (stopVps_begin true
                              (app_with 3 (mkVps stopped 100 jan1) "2024-01-01")))).
    reflexivity.
  - apply (He true (jan1 + 5) a). right. right. simpl. lia.
Defined.

(** C10 as stated fails on [runTask]: its [ensureDaily] runs before the
    guards.  The short link is on cooldown until 00:00:06 and the window
    still belongs to 2024-01-01 with 2 points earned; a click half a second
    after midnight is refused for the cooldown, and by then the call has
    moved the window to 2024-01-02 and reset the earned counter. *)
Lemma runTask_refused_after_rollover :
  let s := run short_before_midnight (boot (jan2 - 30000) None 0) in
  let r := runTask_begin true true (jan2 + 500) "short" (app s) in
  daily (state (app s)) = mkDaily "2024-01-01" 2 "" /\
  snd r = None /\
  hd_error (shown (fst r)) = Some OnCooldown /\
  daily (state (fst r)) = mkDaily "2024-01-02" 0 "" /\
  daily (state (fst r)) <> daily (state (app s)).
Proof. vm_compute. repeat split. discriminate. Qed.

(** * Further properties of the engine *)

(** ** The lease invariant *)

Lemma tick_vps_lease_ok (now : Z) (v : Vps) :
  lease_ok v -> lease_ok (fst (tick_vps now v)).
Proof.
  unfold lease_ok, tick_vps. intros [H0 Hr].
  destruct (Status_eqb_spec (status v) running) as [Hs|Hs]; [|simpl; auto].
  destruct (Z.ltb_spec 0 (timeLeftSec v)); [|simpl; auto]. cbn [andb].
  match goal with |- context [0 <? ?d] => destruct (Z.ltb_spec 0 d) end.
  - cbn [timeLeftSec].
    match goal with |- context [?x <=? 0] => destruct (Z.leb_spec x 0) end;
      cbn [fst timeLeftSec status]; split; try lia; try discriminate.
  - destruct (Z.leb_spec (timeLeftSec v) 0); cbn [fst]; [lia | auto].
Qed.

Lemma step_lease_ok (now : Z) (e : Event) (s : Sys) :
  lease_ok (vps (state (app s))) -> lease_ok (vps (state (app (step now e s)))).
Proof.
  intros H. destruct e; unfold step.
  - pose proof (runTask_begin_vps loggedIn btnOk now type (app s)) as E.
    destruct (runTask_begin loggedIn btnOk now type (app s)); cbn [fst app] in *.
    now rewrite E.
  - destruct (nth_error (tasksWaiting s) i); cbn [app]; [|exact H].
    now rewrite runTask_resume_vps.
  - unfold createVps_begin. break_ifs; cbn [app]; try exact H.
    destruct H as [H0 _]. split; [exact H0 | discriminate].
  - destruct (createsWaiting s); cbn [app]; [exact H|].
    unfold lease_ok. cbn -[firstn]. unfold CFG.redeem_seconds. split; [lia | intros _; lia].
  - pose proof (stopVps_begin_state loggedIn (app s)) as E.
    destruct (stopVps_begin loggedIn (app s)); cbn [fst app] in *.
    now rewrite E.
  - destruct (stopsWaiting s); cbn [app]; [exact H|].
    unfold stopVps_resume. destruct (negb ok); [exact H|].
    destruct H as [H0 _]. split; [exact H0 | discriminate].
  - cbn [app]. unfold extendVps, CFG.extend_seconds.
    destruct (negb loggedIn); [exact H|].
    destruct (Z.leb_spec (timeLeftSec (vps (state (app s)))) 0); [exact H|].
    destruct (_ <? _); [exact H|].
    unfold lease_ok. cbn -[firstn Z.add Z.mul]. split; [lia | intros _; lia].
  - cbn [app]. rewrite tick_vps_eq. now apply tick_vps_lease_ok.
Qed.

(** X1.  Along every trace of events the seconds left never become
    negative and a running lease always has seconds left; both hold from a
    fresh installation on. *)
Theorem lease_invariant :
  (forall tr s, lease_ok (vps (state (app s))) ->
                lease_ok (vps (state (app (run tr s))))) /\
  (forall tr now se, lease_ok (vps (state (app (run tr (boot now None se)))))).
Proof.
  assert (H : forall tr s, lease_ok (vps (state (app s))) ->
                           lease_ok (vps (state (app (run tr s))))).
  { induction tr as [|[now e] tr IH]; intros s Hs; [exact Hs|].
    simpl. apply IH. now apply step_lease_ok. }
  split; [exact H|].
  intros tr now se. apply H. unfold boot. cbn [app].
  rewrite tick_vps_eq. apply tick_vps_lease_ok.
  unfold lease_ok. simpl. split; [lia | discriminate].
Qed.

Lemma lease_invariant_witness :
  lease_ok (vps (state (app (run recreate_on_paused_time
                               (mkSys (app_with 0 (mkVps running 5 jan1) "2024-01-01")
                                      [] 0 0))))).
Proof.
  apply (proj1 lease_invariant). unfold lease_ok. simpl. split; [lia | intros _; lia].
Defined.

(** ** Ticks compose *)

(** A tick keeps the last reconciliation instant positive and not after
    the clock. *)
Lemma tick_vps_last (now : Z) (v : Vps) :
  0 < lastTickMs v <= now ->
  0 < lastTickMs (fst (tick_vps now v)) <= now.
Proof.
  intros H. unfold tick_vps.
  destruct (Status_eqb (status v) running && (0 <? timeLeftSec v)); [|exact H].
  destruct (Z.eqb_spec (lastTickMs v) 0); [lia|].
  pose proof (Z.mul_div_le (now - lastTickMs v) 1000 ltac:(lia)) as Hd.
  destruct (Z.ltb_spec 0 ((now - lastTickMs v) / 1000)).
  - cbn [timeLeftSec].
    destruct (_ <=? 0); cbn [fst lastTickMs]; lia.
  - destruct (_ <=? 0); cbn [fst lastTickMs]; lia.
Qed.

Lemma div_after_advance (now last t : Z) :
  last <= now -> now <= t ->
  (t - (last + (now - last) / 1000 * 1000)) / 1000
  = (t - last) / 1000 - (now - last) / 1000.
Proof.
  intros H1 H2.
  replace (t - (last + (now - last) / 1000 * 1000))
    with ((t - last) + (- ((now - last) / 1000)) * 1000) by lia.
  rewrite Z.div_add by lia. lia.
Qed.

(** A tick at [t1] followed by a tick at [t2] leaves the seconds and the
    status that the tick at [t2] alone leaves. *)
Lemma tick_vps_compose (t1 t2 : Z) (v : Vps) :
  0 < lastTickMs v <= t1 -> t1 <= t2 ->
  let r := fst (tick_vps t2 (fst (tick_vps t1 v))) in
  let d := fst (tick_vps t2 v) in
  timeLeftSec r = timeLeftSec d /\ status r = status d.
Proof.
  intros Hl H12.
  destruct (Status_eqb_spec (status v) running) as [Hs|Hs].
  2:{ cbv zeta. rewrite (tick_vps_not_running t1 v Hs). cbn [fst]. auto. }
  destruct (Z.lt_ge_cases 0 (timeLeftSec v)) as [Hp|Hp].
  2:{ assert (E : forall t, tick_vps t v = (v, false)).
      { intros t. unfold tick_vps. destruct (Z.ltb_spec 0 (timeLeftSec v)); [lia|].
        now rewrite andb_false_r. }
      cbv zeta. rewrite (E t1). cbn [fst]. auto. }
  cbv zeta.
  rewrite (tick_vps_running t1 v Hs Hp Hl).
  rewrite (tick_vps_running t2 v Hs Hp ltac:(lia)).
  assert (0 <= (t1 - lastTickMs v) / 1000) by (apply Z.div_pos; lia).
  assert ((t1 - lastTickMs v) / 1000 <= (t2 - lastTickMs v) / 1000)
    by (apply Z.div_le_mono; lia).
  pose proof (Z.mul_div_le (t1 - lastTickMs v) 1000 ltac:(lia)).
  destruct (Z.leb_spec (timeLeftSec v - (t1 - lastTickMs v) / 1000) 0).
  - rewrite tick_vps_not_running by (simpl; discriminate). cbn [fst].
    destruct (Z.leb_spec (timeLeftSec v - (t2 - lastTickMs v) / 1000) 0); [auto | lia].
  - rewrite tick_vps_running by (cbn [status timeLeftSec lastTickMs]; first [reflexivity | lia]).
    cbn [timeLeftSec lastTickMs].
    rewrite div_after_advance by lia.
    replace (timeLeftSec v - (t1 - lastTickMs v) / 1000 -
             ((t2 - lastTickMs v) / 1000 - (t1 - lastTickMs v) / 1000))
      with (timeLeftSec v - (t2 - lastTickMs v) / 1000) by lia.
    destruct (Z.leb_spec (timeLeftSec v - (t2 - lastTickMs v) / 1000) 0); auto.
Qed.

Lemma ticks_vps_compose (ts : list Z) (t : Z) (a : App) :
  0 < lastTickMs (vps (state a)) ->
  ascending (lastTickMs (vps (state a))) (ts ++ [t]) ->
  timeLeftSec (vps (state (ticks (ts ++ [t]) a))) = timeLeftSec (vps (state (tick t a))) /\
  status (vps (state (ticks (ts ++ [t]) a))) = status (vps (state (tick t a))).
Proof.
  revert a. induction ts as [|t1 ts IH]; intros a Hpos Hasc.
  - simpl. auto.
  - change (ticks ((t1 :: ts) ++ [t]) a) with (ticks (ts ++ [t]) (tick t1 a)).
    destruct Hasc as [H1 Hasc].
    assert (Hl1 : 0 < lastTickMs (vps (state (tick t1 a))) <= t1).
    { rewrite tick_vps_eq. apply tick_vps_last. lia. }
    assert (Ht : t1 <= t).
    { clear - Hasc. revert t1 Hasc. induction ts as [|x ts IHts]; simpl; intros t1 H.
      - lia.
      - destruct H as [H1 H2]. specialize (IHts x H2). lia. }
    assert (Hasc' : ascending (lastTickMs (vps (state (tick t1 a)))) (ts ++ [t])).
    { destruct ts as [|x ts]; simpl in *; destruct Hasc; split; auto; lia. }
    destruct (IH (tick t1 a) ltac:(lia) Hasc') as [E1 E2].
    rewrite E1, E2, !tick_vps_eq.
    apply tick_vps_compose; lia.
Qed.

(** X2.  The countdown does not drift.  For a running lease with seconds
    left, whatever ticks happened before (at instants that never go back,
    from the last reconciliation on), after a tick at [t] the seconds left
    are those of the whole seconds elapsed between the last reconciliation
    and [t], floored at 0; the lease is running exactly when some are left,
    and stopped exactly when the whole seconds elapsed reach the seconds it
    had. *)
Theorem ticks_no_drift (ts : list Z) (t : Z) (a : App)
    (Hrun : status (vps (state a)) = running)
    (Hpos : 0 < timeLeftSec (vps (state a)))
    (Hlast : 0 < lastTickMs (vps (state a)))
    (Hasc : ascending (lastTickMs (vps (state a))) (ts ++ [t])) :
  let v := vps (state a) in
  let v' := vps (state (ticks (ts ++ [t]) a)) in
  timeLeftSec v' = Z.max 0 (timeLeftSec v - (t - lastTickMs v) / 1000) /\
  (status v' = running <-> 0 < timeLeftSec v') /\
  (status v' = stopped <-> timeLeftSec v <= (t - lastTickMs v) / 1000).
Proof.
  intros v v'.
  destruct (ticks_vps_compose ts t a Hlast Hasc) as [E1 E2].
  assert (Ht : lastTickMs v <= t).
  { clear - Hasc. unfold v. revert Hasc. generalize (lastTickMs (vps (state a))).
    induction ts as [|x ts IH]; simpl; intros z H; [lia|].
    destruct H as [H1 H2]. specialize (IH x H2). lia. }
  unfold v'. rewrite E1, E2, tick_vps_eq.
  rewrite tick_vps_running by (auto; unfold v in *; lia).
  fold v.
  destruct (Z.leb_spec (timeLeftSec v - (t - lastTickMs v) / 1000) 0);
    cbn [timeLeftSec status]; repeat split; intros; try lia; try discriminate;
    try reflexivity.
Qed.

Lemma ticks_no_drift_witness :
  let a := app_with 0 (mkVps running 3600 jan1) "2024-01-01" in
  let a' := ticks [jan1 + 999; jan1 + 1998; jan1 + 2997; jan1 + 3996; jan1 + 4995] a in
  timeLeftSec (vps (state a')) = 3596.
Proof.
  intros a a'.
  destruct (ticks_no_drift [jan1 + 999; jan1 + 1998; jan1 + 2997; jan1 + 3996]
              (jan1 + 4995) a) as [H _].
  - reflexivity.
  - reflexivity.
  - reflexivity.
  - simpl. unfold jan1. lia.
  - exact H.
Defined.

(** ** Reconciling twice at one instant *)

Lemma set_vps_same (a : App) : set_state (with_vps (vps (state a))) a = a.
Proof. destruct a as [[b v d t l] se sh]. reflexivity. Qed.

Lemma tick_vps_idem (now : Z) (v : Vps) :
  tick_vps now (fst (tick_vps now v)) = (fst (tick_vps now v), false).
Proof.
  unfold tick_vps at 2 3.
  destruct (Status_eqb_spec (status v) running) as [Hs|Hs];
    [|cbn [andb fst]; now apply tick_vps_not_running].
  destruct (Z.ltb_spec 0 (timeLeftSec v)) as [Hp|Hp]; cbn [andb].
  2:{ cbn [fst]. unfold tick_vps. destruct (Z.ltb_spec 0 (timeLeftSec v)); [lia|].
      now rewrite andb_false_r. }
  set (last := if lastTickMs v =? 0 then now else lastTickMs v).
  destruct (Z.ltb_spec 0 ((now - last) / 1000)) as [Hd|Hd].
  - cbn [timeLeftSec].
    destruct (Z.leb_spec (Z.max 0 (timeLeftSec v - (now - last) / 1000)) 0); cbn [fst].
    + apply tick_vps_not_running. simpl. discriminate.
    + unfold tick_vps. cbn [status timeLeftSec lastTickMs]. rewrite Hs.
      destruct (Z.ltb_spec 0 (Z.max 0 (timeLeftSec v - (now - last) / 1000))); [|lia].
      cbn [Status_eqb andb].
      assert (Hl : lastTickMs v <> 0 /\ last = lastTickMs v).
      { revert Hd. unfold last. destruct (Z.eqb_spec (lastTickMs v) 0); [|auto].
        rewrite Z.sub_diag. simpl. intros Hd. discriminate Hd. }
      destruct Hl as [Hne Hl].
      assert (Hz : (now - (last + (now - last) / 1000 * 1000)) / 1000 = 0).
      { apply Z.div_small. pose proof (Z.mod_eq (now - last) 1000 ltac:(lia)).
        pose proof (Z.mod_pos_bound (now - last) 1000 ltac:(lia)). lia. }
      destruct (Z.eqb_spec (last + (now - last) / 1000 * 1000) 0) as [E0|E0].
      * rewrite Z.sub_diag. cbn [Z.div Z.div_eucl fst Z.ltb Z.compare timeLeftSec].
        destruct (Z.leb_spec (Z.max 0 (timeLeftSec v - (now - last) / 1000)) 0); [lia|].
        reflexivity.
      * rewrite Hz. cbn [Z.ltb Z.compare timeLeftSec].
        destruct (Z.leb_spec (Z.max 0 (timeLeftSec v - (now - last) / 1000)) 0); [lia|].
        reflexivity.
  - destruct (Z.leb_spec (timeLeftSec v) 0); [lia|]. cbn [fst].
    unfold tick_vps. rewrite Hs. cbn [Status_eqb].
    destruct (Z.ltb_spec 0 (timeLeftSec v)); [|lia]. cbn [andb]. fold last.
    destruct (Z.ltb_spec 0 ((now - last) / 1000)); [lia|].
    destruct (Z.leb_spec (timeLeftSec v) 0); [lia|]. reflexivity.
Qed.

Lemma tick_tick (now : Z) (a : App) : tick now (tick now a) = tick now a.
Proof.
  assert (Hu : utcDate (daily (state (tick now a))) = Clock.utcDateKey now).
  { destruct (tick_frame now a) as (_ & _ & _ & -> & _). apply ensureDaily_utcDate. }
  unfold tick at 1. rewrite (ensureDaily_same_day _ _ Hu).
  rewrite tick_vps_eq, tick_vps_idem.
  rewrite <- tick_vps_eq. apply set_vps_same.
Qed.

(** X3.  Reconciling again at the same instant changes nothing: neither a
    second [ensureDaily] nor a second [tick] touches the state, the session
    counter or the messages shown. *)
Theorem reconcile_idempotent (now : Z) (a : App) :
  ensureDaily now (ensureDaily now a) = ensureDaily now a /\
  tick now (tick now a) = tick now a.
Proof.
  split.
  - apply ensureDaily_same_day, ensureDaily_utcDate.
  - apply tick_tick.
Qed.

(** ** Cooldowns *)

Lemma runTask_resume_tasks (t : Z) (p : PendingTask) (a : App) :
  tasks (state (runTask_resume t p a)) =
  if String.eqb (p_type p) "daily" then tasks (state a)
  else cooldown_set (p_type p) (t + cooldownSec (p_cfg p) * 1000) (tasks (state a)).
Proof.
  unfold runTask_resume.
  destruct (String.eqb (p_type p) "daily"); cbn -[firstn ensureDaily cooldown_set];
    match goal with
    | |- context [ensureDaily t ?x] =>
        destruct (ensureDaily_frame t x) as (_ & _ & H & _)
    end; rewrite H; reflexivity.
Qed.

Lemma cooldown_get_set (type other : string) (v : Z) (ts : Tasks) :
  type = "video" \/ type = "short" ->
  cooldown_get (cooldown_set type v ts) type = v /\
  (other <> type -> cooldown_get (cooldown_set type v ts) other = cooldown_get ts other).
Proof.
  unfold cooldown_get, cooldown_set. intros [-> | ->]; cbn [String.eqb Ascii.eqb Bool.eqb];
    (split; [reflexivity|]); intros Hne.
  - destruct (String.eqb_spec other "video"); [contradiction | reflexivity].
  - destruct (String.eqb_spec other "video"); [reflexivity|].
    destruct (String.eqb_spec other "short"); [contradiction | reflexivity].
Qed.

(** X4.  When a repeatable task (ad or short link) completes at [t], a new
    request of the same task by a logged-in user is refused as on cooldown
    at every instant before [t] plus its configured cooldown (0 s for ads,
    25 s for short links) and accepted from that instant on; the cooldown of
    the other task is not touched. *)
Theorem cooldown_after_completion (t now : Z) (type today : string) (cfg : TaskCfg) (a : App)
    (Hcfg : CFG.tasks type = Some cfg)
    (Hrep : String.eqb type "daily" = false) :
  let a2 := runTask_resume t (mkPending type cfg today) a in
  (now < t + cooldownSec cfg * 1000 ->
     runTask_begin true true now type a2
       = (toast_show OnCooldown (ensureDaily now a2), None)) /\
  (t + cooldownSec cfg * 1000 <= now ->
     runTask_begin true true now type a2
       = (toast_show ProcessingTask (ensureDaily now a2),
          Some (mkPending type cfg (Clock.utcDateKey now)))) /\
  (forall other, other <> type ->
     cooldown_get (tasks (state a2)) other = cooldown_get (tasks (state a)) other) /\
  (cooldownSec cfg = if String.eqb type "short" then 25 else 0).
Proof.
  intros a2.
  pose proof (repeatable_types type cfg Hcfg Hrep) as Hty.
  assert (Ht : tasks (state a2)
               = cooldown_set type (t + cooldownSec cfg * 1000) (tasks (state a))).
  { unfold a2. rewrite runTask_resume_tasks. cbn [p_type p_cfg]. now rewrite Hrep. }
  destruct (cooldown_get_set type type (t + cooldownSec cfg * 1000) (tasks (state a)) Hty)
    as [Hget _].
  assert (E : runTask_begin true true now type a2 =
               if now <? t + cooldownSec cfg * 1000
               then (toast_show OnCooldown (ensureDaily now a2), None)
               else (toast_show ProcessingTask (ensureDaily now a2),
                     Some (mkPending type cfg (Clock.utcDateKey now)))).
  { unfold runTask_begin. cbn [negb]. rewrite Hcfg, Hrep.
    destruct (ensureDaily_frame now a2) as (_ & _ & -> & _).
    rewrite Ht, Hget. destruct (_ <? _); reflexivity. }
  split; [|split; [|split]].
  - intros H. rewrite E. destruct (Z.ltb_spec now (t + cooldownSec cfg * 1000)); [auto | lia].
  - intros H. rewrite E. destruct (Z.ltb_spec now (t + cooldownSec cfg * 1000)); [lia | auto].
  - intros other Hne. rewrite Ht.
    now apply (cooldown_get_set type other).
  - revert Hcfg. destruct Hty as [-> | ->]; cbn; intros H; inversion H; reflexivity.
Qed.

Lemma cooldown_after_completion_witness :
  let a2 := runTask_resume (jan1 + 1000) (mkPending "short" short_cfg "2024-01-01")
              (app_with 0 (mkVps stopped 0 jan1) "2024-01-01") in
  snd (runTask_begin true true (jan1 + 25999) "short" a2) = None /\
  snd (runTask_begin true true (jan1 + 26000) "short" a2)
    = Some (mkPending "short" short_cfg "2024-01-01") /\
  snd (runTask_begin true true (jan1 + 1000) "video" a2)
    = Some (mkPending "video" video_cfg "2024-01-01").
Proof.
  intros a2.
  destruct (cooldown_after_completion (jan1 + 1000) (jan1 + 25999) "short" "2024-01-01"
              short_cfg (app_with 0 (mkVps stopped 0 jan1) "2024-01-01") eq_refl eq_refl)
    as (H1 & _).
  destruct (cooldown_after_completion (jan1 + 1000) (jan1 + 26000) "short" "2024-01-01"
              short_cfg (app_with 0 (mkVps stopped 0 jan1) "2024-01-01") eq_refl eq_refl)
    as (_ & H2 & _).
  split; [|split].
  - unfold a2. rewrite H1; [reflexivity | simpl; unfold jan1; lia].
  - unfold a2. rewrite H2; [reflexivity | simpl; unfold jan1; lia].
  - reflexivity.
Defined.

(** ** Start-up and reload *)

(** X5.  Whatever blob is stored, the state after the start-up
    normalization has a daily window for today whose claimed date is empty
    or today.  Nothing usable stored gives the initial state.  A stored
    balance and lease are taken as they are; a stored window of today keeps
    its earned counter, and any other window is replaced by an empty one. *)
Theorem load_normalizes (now : Z) (raw : option Stored) :
  utcDate (daily (load now raw)) = Clock.utcDateKey now /\
  (dailyClaimedUtcDate (daily (load now raw)) = "" \/
   dailyClaimedUtcDate (daily (load now raw)) = Clock.utcDateKey now) /\
  (raw = None -> load now raw = initial now) /\
  (forall r, raw = Some r ->
     pointsBalance (load now raw) = s_pointsBalance r /\
     vps (load now raw) = s_vps r /\
     (forall d, s_daily r = Some d ->
        (utcDate d = Clock.utcDateKey now -> earned (daily (load now raw)) = earned d) /\
        (utcDate d <> Clock.utcDateKey now ->
           daily (load now raw) = mkDaily (Clock.utcDateKey now) 0 "")) /\
     (s_daily r = None -> daily (load now raw) = mkDaily (Clock.utcDateKey now) 0 "")).
Proof.
  split; [|split; [apply load_claimed_date | split]].
  - unfold load. destruct raw as [r|]; [|reflexivity]. cbn [daily].
    destruct (s_daily r) as [d|];
      [destruct (String.eqb_spec (utcDate d) (Clock.utcDateKey now))|];
      cbn [negb]; destruct (_ && _); cbn [utcDate]; auto.
  - intros ->. reflexivity.
  - intros r ->. unfold load. cbn [pointsBalance vps daily].
    repeat split.
    + intros Hd. rewrite H, Hd, String.eqb_refl. cbn [negb].
      destruct (_ && _); reflexivity.
    + intros Hd. rewrite H.
      destruct (String.eqb_spec (utcDate d) (Clock.utcDateKey now)); [contradiction|].
      reflexivity.
    + intros ->. reflexivity.
Qed.

Lemma load_normalizes_witness :
  let r := mkStored 42 (mkVps stopped 900 jan1)
             (Some (mkDaily "2023-12-31" 17 "2023-12-31")) None None in
  pointsBalance (load jan1 (Some r)) = 42 /\
  daily (load jan1 (Some r)) = mkDaily "2024-01-01" 0 "".
Proof.
  intros r.
  destruct (load_normalizes jan1 (Some r)) as (_ & _ & _ & H).
  destruct (H r eq_refl) as (Hb & _ & Hd & _).
  split; [exact Hb|].
  apply (Hd (mkDaily "2023-12-31" 17 "2023-12-31") eq_refl).
  vm_compute. discriminate.
Defined.

(** The state after a tick depends on the state before it only. *)
Lemma tick_state_ext (now : Z) (x y : App) :
  state x = state y -> state (tick now x) = state (tick now y).
Proof.
  intros Hxy. unfold tick, ensureDaily. rewrite Hxy.
  destruct (negb _); cbn [state set_state toast_show]; rewrite ?Hxy;
    match goal with
    | |- context [tick_vps ?n ?v] => destruct (tick_vps n v) as [v' [|]]
    end; cbn [state set_state toast_show]; rewrite ?Hxy; reflexivity.
Qed.

(** X6.  Saving a state and loading it back at [now] gives the same state
    exactly when its daily window is for today with a claimed date that is
    empty or today.  In that case a whole restart at the instant of the
    last tick (load, normalize, first tick) returns to the state that was
    saved. *)
Theorem reload_roundtrip (now : Z) (s : State) :
  (load now (Some (stored_of s)) = s <->
     utcDate (daily s) = Clock.utcDateKey now /\
     (dailyClaimedUtcDate (daily s) = "" \/
      dailyClaimedUtcDate (daily s) = Clock.utcDateKey now)) /\
  (forall a se,
     s = state (tick now a) ->
     dailyClaimedUtcDate (daily s) = "" \/
     dailyClaimedUtcDate (daily s) = Clock.utcDateKey now ->
     state (app (boot now (Some (stored_of s)) se)) = s).
Proof.
  assert (Back :
     utcDate (daily s) = Clock.utcDateKey now ->
     dailyClaimedUtcDate (daily s) = "" \/
     dailyClaimedUtcDate (daily s) = Clock.utcDateKey now ->
     load now (Some (stored_of s)) = s).
  { intros Hu Hc. destruct s as [b v [u e c] t l]. cbn in Hu, Hc. subst u.
    unfold load, stored_of. cbn -[Clock.utcDateKey String.eqb].
    rewrite String.eqb_refl. cbn [negb utcDate earned dailyClaimedUtcDate].
    destruct Hc as [-> | ->].
    - reflexivity.
    - rewrite String.eqb_refl, andb_false_r. reflexivity. }
  split.
  - split.
    + intros E. destruct (load_normalizes now (Some (stored_of s))) as (Hu & Hc & _).
      rewrite E in Hu, Hc. auto.
    + intros [Hu Hc]. auto.
  - intros a se Hs Hc. unfold boot. cbn [app].
    assert (Hu : utcDate (daily s) = Clock.utcDateKey now).
    { rewrite Hs. destruct (tick_frame now a) as (_ & _ & _ & -> & _).
      apply ensureDaily_utcDate. }
    rewrite (Back Hu Hc).
    assert (Ha : mkApp s se [] = mkApp (state (tick now a)) se []) by now rewrite Hs.
    rewrite Ha.
    rewrite (tick_state_ext now (mkApp (state (tick now a)) se []) (tick now a) eq_refl).
    rewrite tick_tick. now symmetry.
Qed.

Lemma reload_roundtrip_witness :
  let a := app_with 7 (mkVps running 100 jan1) "2023-12-31" in
  let s := state (tick (jan1 + 3500) a) in
  load (jan1 + 3500) (Some (stored_of s)) = s /\
  state (app (boot (jan1 + 3500) (Some (stored_of s)) 0)) = s.
Proof.
  intros a s.
  destruct (reload_roundtrip (jan1 + 3500) s) as [H1 H2].
  split.
  - apply H1. split; [reflexivity | left; reflexivity].
  - apply (H2 a 0); [reflexivity | left; reflexivity].
Defined.

(** ** The session counter *)

Lemma step_session (now : Z) (e : Event) (s : Sys) :
  waiting_ok s ->
  sessionEarned (app s) <= sessionEarned (app (step now e s)) /\
  balance (step now e s) - sessionEarned (app (step now e s))
    <= balance s - sessionEarned (app s).
Proof.
  unfold balance, waiting_ok. intros Hw. destruct e; unfold step.
  - pose proof (runTask_begin_balance loggedIn btnOk now type (app s)) as Hb.
    assert (Hs : sessionEarned (fst (runTask_begin loggedIn btnOk now type (app s)))
                 = sessionEarned (app s)).
    { destruct (ensureDaily_frame now (app s)) as (_ & _ & _ & _ & H).
      unfold runTask_begin. break_ifs; simpl; exact H. }
    destruct (runTask_begin loggedIn btnOk now type (app s)); cbn [fst app] in *. lia.
  - destruct (nth_error (tasksWaiting s) i) as [p|] eqn:E; cbn [app]; [|lia].
    rewrite runTask_resume_balance.
    assert (Hs : sessionEarned (runTask_resume now p (app s))
                 = sessionEarned (app s) + reward (p_cfg p)).
    { unfold runTask_resume.
      destruct (String.eqb (p_type p) "daily"); cbn -[firstn ensureDaily];
        match goal with
        | |- context [ensureDaily now ?x] =>
            destruct (ensureDaily_frame now x) as (_ & _ & _ & _ & H)
        end; rewrite H; reflexivity. }
    rewrite Hs.
    apply nth_error_In in E. rewrite Forall_forall in Hw. apply Hw in E.
    apply reward_nonneg in E. lia.
  - unfold createVps_begin, CFG.redeem_points. break_ifs; simpl; lia.
  - destruct (createsWaiting s); cbn -[firstn]; lia.
  - unfold stopVps_begin. break_ifs; simpl; lia.
  - destruct (stopsWaiting s); [simpl; lia|].
    unfold stopVps_resume. break_ifs; simpl; lia.
  - unfold extendVps, CFG.extend_points. break_ifs; cbn -[firstn Z.sub]; lia.
  - cbn [app]. destruct (tick_frame now (app s)) as (-> & _ & _ & _ & ->). lia.
Qed.

Lemma step_waiting_ok (now : Z) (e : Event) (s : Sys) :
  waiting_ok s -> waiting_ok (step now e s).
Proof.
  unfold waiting_ok. intros Hw. destruct e; unfold step.
  - pose proof (runTask_begin_pending loggedIn btnOk now type (app s)) as H2.
    destruct (runTask_begin loggedIn btnOk now type (app s)) as [a' [p|]];
      cbn [snd tasksWaiting] in *; auto.
    apply Forall_app; split; auto.
    constructor; [|constructor].
    destruct (H2 p eq_refl) as [E1 E2]. rewrite E1. exact E2.
  - destruct (nth_error (tasksWaiting s) i); cbn [tasksWaiting]; auto.
    now apply remove_nth_Forall.
  - destruct (createVps_begin loggedIn (app s)); exact Hw.
  - destruct (createsWaiting s); exact Hw.
  - destruct (stopVps_begin loggedIn (app s)); exact Hw.
  - destruct (stopsWaiting s); exact Hw.
  - exact Hw.
  - exact Hw.
Qed.

(** X7.  Along every trace the session counter never goes down, and the
    balance never grows by more than the counter does: points enter the
    balance only as rewards that are also counted for the session. *)
Theorem session_counter_bounds_balance (tr : list (Z * Event)) (s : Sys)
    (Hw : waiting_ok s) :
  sessionEarned (app s) <= sessionEarned (app (run tr s)) /\
  balance (run tr s) - balance s
    <= sessionEarned (app (run tr s)) - sessionEarned (app s).
Proof.
  revert s Hw. induction tr as [|[now e] tr IH]; intros s Hw.
  - simpl. lia.
  - simpl.
    destruct (step_session now e s Hw) as [H1 H2].
    destruct (IH _ (step_waiting_ok now e s Hw)) as [H3 H4]. lia.
Qed.

Lemma session_counter_bounds_balance_witness :
  let s0 := boot jan1 None 0 in
  let s := run recreate_on_paused_time s0 in
  sessionEarned (app s0) <= sessionEarned (app s) /\
  balance s - balance s0 <= sessionEarned (app s) - sessionEarned (app s0).
Proof.
  intros s0 s. apply (session_counter_bounds_balance recreate_on_paused_time s0).
  constructor.
Defined.

(** ** Buttons and guards *)

(** X8.  The action buttons are enabled exactly when the operation behind
    them would go through for a logged-in user: "create" when [createVps]
    would take the points and start provisioning, "stop" when [stopVps]
    would ask for confirmation, "extend" when [extendVps] would extend. *)
Theorem renderActions_agrees (now : Z) (a : App) :
  let r := renderActions (state a) in
  (canCreate r = true <-> snd (createVps_begin true a) = true) /\
  (canStop r = true <-> snd (stopVps_begin true a) = true) /\
  (canExtend r = true <->
     shown (extendVps true now a) = Extended 1 50 :: shown a) /\
  (canExtend r = false -> state (extendVps true now a) = state a).
Proof.
  unfold renderActions, createVps_begin, stopVps_begin, extendVps,
    CFG.redeem_points, CFG.extend_points.
  cbn [canCreate canStop canExtend negb].
  destruct a as [[b [st tl lt] d t l] se sh].
  cbn [state vps status timeLeftSec pointsBalance].
  split; [|split; [|split]].
  - destruct st; cbn [Status_eqb negb andb orb snd];
      try (split; discriminate).
    destruct (Z.leb_spec 10 b), (Z.ltb_spec b 10); try lia; cbn [snd]; split; auto.
  - destruct st; cbn [Status_eqb negb snd]; split; auto.
  - destruct (Z.ltb_spec 0 tl), (Z.leb_spec tl 0); try lia; cbn [andb];
      [|split; [discriminate | cbn; intros Hx; inversion Hx]].
    destruct (Z.leb_spec 50 b), (Z.ltb_spec b 50); try lia; cbn -[firstn].
    + split; auto.
    + split; [discriminate | intros Hx; inversion Hx].
  - destruct (Z.ltb_spec 0 tl), (Z.leb_spec tl 0); try lia; cbn [andb];
      try reflexivity.
    destruct (Z.leb_spec 50 b), (Z.ltb_spec b 50); try lia;
      first [discriminate | reflexivity].
Qed.

(** X9.  Once the daily window is for today (as it is after each tick), a
    task button is disabled exactly when [runTask] would refuse the task to
    a logged-in user.  A cooldown pill shows the remaining time rounded up
    to whole seconds, which is at least 1. *)
Theorem renderTask_agrees (now : Z) (type : string) (cfg : TaskCfg) (a : App)
    (Hcfg : CFG.tasks type = Some cfg)
    (Hday : utcDate (daily (state a)) = Clock.utcDateKey now) :
  (fst (renderTask now type (state a)) = true
     <-> snd (runTask_begin true true now type a) = None) /\
  (forall k, snd (renderTask now type (state a)) = Cooldown k ->
     let remaining := cooldown_get (tasks (state a)) type - now in
     1 <= k /\ (k - 1) * 1000 < remaining <= k * 1000).
Proof.
  split.
  - unfold renderTask, runTask_begin. rewrite (ensureDaily_same_day now a Hday).
    cbn [negb]. rewrite Hcfg.
    destruct (String.eqb type "daily").
    + destruct (String.eqb _ _); cbn [fst snd]; split; auto; discriminate.
    + destruct (Z.ltb_spec now (cooldown_get (tasks (state a)) type));
        destruct (Z.ltb_spec 0 (Z.max 0 (cooldown_get (tasks (state a)) type - now)));
        try lia; cbn [fst snd]; split; auto; discriminate.
  - intros k. unfold renderTask.
    destruct (String.eqb type "daily").
    + destruct (String.eqb _ _); cbn [snd]; discriminate.
    + destruct (Z.ltb_spec 0 (Z.max 0 (cooldown_get (tasks (state a)) type - now)));
        cbn [snd]; [|discriminate].
      intros E. inversion E as [Hk]. clear E.
      rewrite Z.max_r in * by lia.
      set (x := cooldown_get (tasks (state a)) type - now) in *.
      pose proof (Z.div_mod (- x) 1000 ltac:(lia)) as Hdm.
      pose proof (Z.mod_pos_bound (- x) 1000 ltac:(lia)) as Hmb.
      cbv zeta. lia.
Qed.

Lemma renderTask_agrees_witness :
  let a := tick (jan1 + 5000)
             (runTask_resume (jan1 + 1000) (mkPending "short" short_cfg "2024-01-01")
                (app_with 0 (mkVps stopped 0 jan1) "2024-01-01")) in
  renderTask (jan1 + 5000) "short" (state a) = (true, Cooldown 21) /\
  snd (runTask_begin true true (jan1 + 5000) "short" a) = None.
Proof.
  intros a.
  destruct (renderTask_agrees (jan1 + 5000) "short" short_cfg a eq_refl eq_refl) as [H _].
  split; [reflexivity|]. apply H. reflexivity.
Defined.

(** * Text helpers *)

(** ** escapeHTML *)

Lemma string_app_assoc (x y z : string) :
  (x ++ (y ++ z))%string = ((x ++ y) ++ z)%string.
Proof. induction x as [|a x IH]; [reflexivity|]. cbn [append]. now rewrite IH. Qed.

Lemma replaceAll_app (c : ascii) (r x y : string) :
  replaceAll c r (x ++ y) = (replaceAll c r x ++ replaceAll c r y)%string.
Proof.
  induction x as [|a x IH]; [reflexivity|].
  cbn [append replaceAll]. destruct (Ascii.eqb a c).
  - rewrite IH. apply string_app_assoc.
  - cbn [append]. now rewrite IH.
Qed.

Lemma escapeHTML_app (x y : string) :
  escapeHTML (x ++ y) = (escapeHTML x ++ escapeHTML y)%string.
Proof. unfold escapeHTML. now rewrite !replaceAll_app. Qed.

Lemma escapeHTML_one (c : ascii) : escapeHTML (String c EmptyString) = entity c.
Proof.
  unfold escapeHTML, entity.
  destruct (Ascii.eqb_spec c "&") as [->|H1]; [reflexivity|].
  destruct (Ascii.eqb_spec c "<") as [->|H2]; [reflexivity|].
  destruct (Ascii.eqb_spec c ">") as [->|H3]; [reflexivity|].
  destruct (Ascii.eqb_spec c dquote) as [->|H4]; [reflexivity|].
  destruct (Ascii.eqb_spec c "'") as [->|H5]; [reflexivity|].
  cbn [replaceAll].
  repeat match goal with
         | H : c <> ?k |- context [Ascii.eqb c ?k] =>
             destruct (Ascii.eqb_spec c k); [contradiction|]; cbn [replaceAll]
         end.
  reflexivity.
Qed.

Lemma escapeHTML_cons (c : ascii) (s : string) :
  escapeHTML (String c s) = (entity c ++ escapeHTML s)%string.
Proof.
  change (String c s) with (String c EmptyString ++ s)%string.
  now rewrite escapeHTML_app, escapeHTML_one.
Qed.

Lemma occurs_app (c : ascii) (x y : string) :
  occurs c (x ++ y) = occurs c x || occurs c y.
Proof.
  induction x as [|a x IH]; [reflexivity|].
  cbn [append occurs]. rewrite IH. now rewrite orb_assoc.
Qed.

Lemma entity_safe (c k : ascii) :
  k = "<"%char \/ k = ">"%char \/ k = dquote \/ k = "'"%char ->
  occurs k (entity c) = false.
Proof.
  intros Hk. unfold entity.
  destruct (Ascii.eqb_spec c "&") as [->|H1];
    [destruct Hk as [-> | [-> | [-> | ->]]]; reflexivity|].
  destruct (Ascii.eqb_spec c "<") as [->|H2];
    [destruct Hk as [-> | [-> | [-> | ->]]]; reflexivity|].
  destruct (Ascii.eqb_spec c ">") as [->|H3];
    [destruct Hk as [-> | [-> | [-> | ->]]]; reflexivity|].
  destruct (Ascii.eqb_spec c dquote) as [->|H4];
    [destruct Hk as [-> | [-> | [-> | ->]]]; reflexivity|].
  destruct (Ascii.eqb_spec c "'") as [->|H5];
    [destruct Hk as [-> | [-> | [-> | ->]]]; reflexivity|].
  cbn [occurs]. rewrite orb_false_r.
  destruct (Ascii.eqb_spec c k) as [->|]; [|reflexivity].
  destruct Hk as [-> | [-> | [-> | ->]]]; contradiction.
Qed.

(** X10.  The text returned by [escapeHTML] contains no "<", no ">" and no
    double or single quote, whatever the input. *)
Theorem escapeHTML_safe (s : string) :
  occurs "<" (escapeHTML s) = false /\
  occurs ">" (escapeHTML s) = false /\
  occurs dquote (escapeHTML s) = false /\
  occurs "'" (escapeHTML s) = false.
Proof.
  induction s as [|c s IH].
  - repeat split.
  - rewrite escapeHTML_cons, !occurs_app.
    destruct IH as (-> & -> & -> & ->).
    rewrite !entity_safe by tauto. repeat split.
Qed.


Lemma string_length_app (x y : string) :
  String.length (x ++ y) = (String.length x + String.length y)%nat.
Proof. induction x as [|a x IH]; [reflexivity|]. cbn [append String.length]. now rewrite IH. Qed.



Example escapeHTML_sample :
  escapeHTML "<a href='x'>Tom & Jerry</a>"
  = "&lt;a href=&#039;x&#039;&gt;Tom &amp; Jerry&lt;/a&gt;".
Proof. reflexivity. Qed.

(** ** formatHHMMSS *)

Lemma pad2_two_digits (n : Z) :
  0 <= n < 100 -> Clock.pad2 (Clock.str n) = two_digits n.
Proof.
  intros H.
  assert (A : forallb (fun i => String.eqb (Clock.pad2 (Clock.str (Z.of_nat i)))
                                            (two_digits (Z.of_nat i)))
                      (seq 0 100) = true) by (vm_compute; reflexivity).
  rewrite forallb_forall in A.
  specialize (A (Z.to_nat n)). rewrite Z2Nat.id in A by lia.
  apply String.eqb_eq, A, in_seq. lia.
Qed.

Lemma digit_inj (a b : Z) : 0 <= a < 10 -> 0 <= b < 10 -> digit a = digit b -> a = b.
Proof.
  intros Ha Hb H. unfold digit in H.
  apply (f_equal nat_of_ascii) in H.
  rewrite !nat_ascii_embedding in H by lia. lia.
Qed.

(** Linear arithmetic with quotients and remainders by constants. *)
Ltac divmod := Z.div_mod_to_equations; lia.

Lemma two_digits_inj (a b : Z) :
  0 <= a < 100 -> 0 <= b < 100 -> two_digits a = two_digits b -> a = b.
Proof.
  intros Ha Hb H. unfold two_digits in H. injection H as H1 H2.
  apply digit_inj in H1; [|divmod|divmod].
  apply digit_inj in H2; [|divmod|divmod]. divmod.
Qed.

(** The display of a number of seconds below one hundred hours: six
    decimal digits and two colons. *)
Lemma formatHHMMSS_digits (t : Z) :
  0 <= t < 360000 ->
  formatHHMMSS t =
  (two_digits (t / 3600) ++ ":" ++ two_digits ((t mod 3600) / 60) ++ ":"
     ++ two_digits (t mod 60))%string.
Proof.
  intros H. unfold formatHHMMSS. rewrite Z.max_r by lia.
  rewrite !pad2_two_digits; [reflexivity | divmod | divmod | divmod].
Qed.

(** X12.  [formatHHMMSS] shows a negative number of seconds as 00:00:00.
    Below one hundred hours it shows exactly eight characters, two digits
    each for the hours, the minutes (below 60) and the seconds (below 60)
    that add up to the number given, and different numbers of seconds are
    shown differently. *)
Theorem formatHHMMSS_spec :
  (forall t, t <= 0 -> formatHHMMSS t = "00:00:00") /\
  (forall t, 0 <= t < 360000 ->
     let h := t / 3600 in
     let m := (t mod 3600) / 60 in
     let s := t mod 60 in
     formatHHMMSS t = (two_digits h ++ ":" ++ two_digits m ++ ":" ++ two_digits s)%string /\
     String.length (formatHHMMSS t) = 8%nat /\
     0 <= m < 60 /\ 0 <= s < 60 /\ h * 3600 + m * 60 + s = t) /\
  (forall t u, 0 <= t < 360000 -> 0 <= u < 360000 ->
     formatHHMMSS t = formatHHMMSS u -> t = u).
Proof.
  split; [|split].
  - intros t H. unfold formatHHMMSS. rewrite Z.max_l by lia. reflexivity.
  - intros t H h m s. rewrite (formatHHMMSS_digits t H). fold h m s.
    split; [reflexivity|]. split; [reflexivity|].
    unfold h, m, s. divmod.
  - intros t u Ht Hu E.
    rewrite (formatHHMMSS_digits t Ht), (formatHHMMSS_digits u Hu) in E.
    unfold two_digits in E. cbn [append] in E.
    injection E as E1 E2 E3 E4 E5 E6.
    assert (H1 : t / 3600 = u / 3600).
    { apply two_digits_inj; [divmod | divmod |]. unfold two_digits. now rewrite E1, E2. }
    assert (H2 : (t mod 3600) / 60 = (u mod 3600) / 60).
    { apply two_digits_inj; [divmod | divmod |]. unfold two_digits. now rewrite E3, E4. }
    assert (H3 : t mod 60 = u mod 60).
    { apply two_digits_inj; [divmod | divmod |]. unfold two_digits. now rewrite E5, E6. }
    divmod.
Qed.

Lemma formatHHMMSS_spec_witness :
  formatHHMMSS (-5) = "00:00:00" /\
  formatHHMMSS 21600 = "06:00:00" /\
  formatHHMMSS 25199 = "06:59:59" /\
  formatHHMMSS 3661 <> formatHHMMSS 3662.
Proof.
  destruct formatHHMMSS_spec as (H1 & H2 & H3).
  split; [apply H1; lia|].
  split; [apply (H2 21600); lia|].
  split; [apply (H2 25199); lia|].
  intros E. apply H3 in E; lia.
Defined.

(** * Accounts *)

Example trim_sample : trim "  12 34  " = "12 34" /\ trim "   " = "" /\ trim "x" = "x".
Proof. repeat split. Qed.

Section AccountFacts.

Variable lc : string -> string.

Lemma sameEmail_ext (e1 e2 : string) (u : User) :
  lc e1 = lc e2 -> sameEmail lc e1 u = sameEmail lc e2 u.
Proof. unfold sameEmail. now intros ->. Qed.

Lemma find_ext {A} (f g : A -> bool) (l : list A) :
  (forall x, f x = g x) -> find f l = find g l.
Proof. intros H. induction l as [|x l IH]; [reflexivity|]. simpl. now rewrite H, IH. Qed.

Lemma existsb_false_not_in (email : string) (l : list User) :
  existsb (sameEmail lc email) l = false ->
  ~ In (lc email) (map (fun u => lc (u_email u)) l).
Proof.
  induction l as [|u l IH]; simpl; [tauto|].
  intros H. apply orb_false_iff in H. destruct H as [H1 H2].
  intros [E|E]; [|now apply IH].
  unfold sameEmail in H1. rewrite E, String.eqb_refl in H1. discriminate.
Qed.

Lemma find_none_existsb {A} (f : A -> bool) (l : list A) :
  find f l = None -> existsb f l = false.
Proof.
  induction l as [|x l IH]; [reflexivity|]. simpl.
  destruct (f x); [discriminate | auto].
Qed.

Lemma NoDup_snoc {A} (x : A) (l : list A) :
  NoDup l -> ~ In x l -> NoDup (l ++ [x]).
Proof.
  induction 1 as [|y l Hy Hl IH]; simpl; intros Hx.
  - constructor; [tauto | constructor].
  - constructor.
    + rewrite in_app_iff. simpl. intros [H|[H|[]]]; [contradiction | subst; tauto].
    + apply IH. tauto.
Qed.

Lemma set_password_first_emails (f : User -> bool) (p : string) (l : list User) :
  map (fun u => lc (u_email u)) (set_password_first f p l)
  = map (fun u => lc (u_email u)) l.
Proof.
  induction l as [|u l IH]; [reflexivity|]. simpl.
  destruct (f u); simpl; [reflexivity | now rewrite IH].
Qed.

Lemma ensureDemoUser_unique id now email provider au :
  unique_emails lc au -> unique_emails lc (fst (ensureDemoUser lc id now email provider au)).
Proof.
  unfold unique_emails, ensureDemoUser. intros H.
  destruct (find (sameEmail lc email) (users au)) eqn:E; [exact H|].
  cbn [fst users]. rewrite map_app. cbn [map u_email].
  apply NoDup_snoc; [exact H|].
  now apply existsb_false_not_in, find_none_existsb.
Qed.

Lemma auth_step_unique now op au :
  unique_emails lc au -> unique_emails lc (auth_step lc now op au).
Proof.
  intros H. destruct op; cbn [auth_step].
  - unfold register.
    destruct (negb tosChecked); [exact H|].
    destruct (_ <? _)%nat; [exact H|].
    destruct (negb _); [exact H|].
    destruct (existsb _ _) eqn:E; [exact H|].
    unfold unique_emails. cbn [fst users]. rewrite map_app. cbn [map u_email].
    apply NoDup_snoc; [exact H|]. now apply existsb_false_not_in.
  - unfold loginWithEmail.
    destruct (find _ _); [|exact H]. destruct (negb _); exact H.
  - unfold oauthSignIn.
    match goal with
    | |- context [ensureDemoUser lc ?i ?n ?e ?p au] =>
        pose proof (ensureDemoUser_unique i n e p au H) as H';
        destruct (ensureDemoUser lc i n e p au) as [au' u]
    end.
    exact H'.
  - unfold genResetCode. destruct (find _ _); exact H.
  - unfold doReset.
    destruct (_ <? _)%nat; [exact H|].
    destruct (store_get _ _); [|exact H].
    destruct (_ <? _); [exact H|].
    destruct (negb _); [exact H|].
    destruct (find _ _); [|exact H].
    unfold unique_emails. cbn [fst users]. now rewrite set_password_first_emails.
  - exact H.
Qed.

(** X13.  Whatever is registered, signed in, requested or reset, and in
    whatever order, no two accounts ever have the same email up to case,
    starting from no account or from any list of accounts that has the
    property. *)
Theorem unique_emails_invariant :
  (forall ops au, unique_emails lc au -> unique_emails lc (auth_run lc ops au)) /\
  (forall ops, unique_emails lc (auth_run lc ops no_accounts)).
Proof.
  assert (H : forall ops au, unique_emails lc au -> unique_emails lc (auth_run lc ops au)).
  { induction ops as [|[now op] ops IH]; intros au Hu; [exact Hu|].
    simpl. apply IH. now apply auth_step_unique. }
  split; [exact H|]. intros ops. apply H. constructor.
Qed.

Lemma find_snoc_fresh {A} (f : A -> bool) (l : list A) (x : A) :
  existsb f l = false -> find f (l ++ [x]) = if f x then Some x else None.
Proof.
  induction l as [|y l IH]; [reflexivity|]. simpl.
  destruct (f y); [discriminate | auto].
Qed.

(** X14.  After a successful [register], signing in with that email in
    any letter case succeeds exactly with the registered password and opens
    the session of the new account, and registering that email again is
    refused as already registered.  The registration itself signs the user
    in when the identifier drawn is not empty. *)
Theorem register_then_login (id email password confirm : string) (tos : bool)
    (now later : Z) (email' password' : string) (au au' : Auth)
    (Hreg : register lc id now email password confirm tos au = (au', None))
    (Hsame : lc email' = lc email) :
  (snd (loginWithEmail lc later email' password' au') = None <-> password' = password) /\
  (password' = password ->
     session (fst (loginWithEmail lc later email' password' au'))
       = Some (mkSession id email later)) /\
  (password' <> password ->
     loginWithEmail lc later email' password' au' = (au', Some InvalidPassword)) /\
  (forall id2 now2 pw2, (8 <= String.length pw2)%nat ->
     register lc id2 now2 email' pw2 pw2 true au' = (au', Some EmailAlreadyRegistered)) /\
  isLoggedIn au' = negb (String.eqb id "").
Proof.
  unfold register in Hreg.
  destruct (negb tos); [discriminate|].
  destruct (_ <? _)%nat; [discriminate|].
  destruct (negb _); [discriminate|].
  destruct (existsb _ _) eqn:E; [discriminate|].
  injection Hreg as <-.
  set (u := mkUser id email password now).
  assert (Hf : find (sameEmail lc email') (users au ++ [u]) = Some u).
  { rewrite (find_ext _ (sameEmail lc email) _ (fun x => sameEmail_ext email' email x Hsame)).
    rewrite find_snoc_fresh by exact E.
    unfold sameEmail. cbn [u u_email]. now rewrite String.eqb_refl. }
  unfold loginWithEmail. cbn [users resetStore]. rewrite Hf. cbn [u u_password u_id u_email].
  split; [|split; [|split; [|split]]].
  - destruct (String.eqb_spec password password') as [->|Hne]; cbn [negb snd]; split;
      auto; try discriminate. intros ->. contradiction.
  - intros ->. rewrite String.eqb_refl. reflexivity.
  - intros Hne. destruct (String.eqb_spec password password') as [->|_];
      [contradiction | reflexivity].
  - intros id2 now2 pw2 Hlen. unfold register. cbn [negb users].
    destruct (Nat.ltb_spec (String.length pw2) 8); [lia|].
    rewrite String.eqb_refl. cbn [negb].
    assert (Hex : existsb (sameEmail lc email') (users au ++ [u]) = true).
    { rewrite existsb_app. cbn [existsb]. unfold sameEmail at 2. cbn [u u_email].
      rewrite Hsame, String.eqb_refl. cbn [orb]. apply orb_true_r. }
    now rewrite Hex.
  - reflexivity.
Qed.

End AccountFacts.

Lemma register_then_login_witness :
  let r := register lower "a1b2" jan1 "Ann@Demo.com" "correct horse" "correct horse" true
             no_accounts in
  snd r = None /\
  snd (loginWithEmail lower (jan1 + 5) "ann@demo.COM" "correct horse" (fst r)) = None /\
  snd (loginWithEmail lower (jan1 + 5) "ann@demo.COM" "Correct horse" (fst r))
    = Some InvalidPassword.
Proof.
  intros r.
  destruct (register_then_login lower "a1b2" "Ann@Demo.com" "correct horse" "correct horse"
              true jan1 (jan1 + 5) "ann@demo.COM" "correct horse" no_accounts (fst r)
              eq_refl eq_refl) as (H1 & _).
  destruct (register_then_login lower "a1b2" "Ann@Demo.com" "correct horse" "correct horse"
              true jan1 (jan1 + 5) "ann@demo.COM" "Correct horse" no_accounts (fst r)
              eq_refl eq_refl) as (_ & _ & H3 & _).
  split; [reflexivity|]. split.
  - apply H1. reflexivity.
  - rewrite H3; [reflexivity | discriminate].
Defined.

Lemma unique_emails_invariant_witness :
  unique_emails lower
    (auth_run lower
       [(jan1, OpRegister "id1" "Bob@demo.com" "password1" "password1" true);
        (jan1 + 1, OpRegister "id2" "bob@DEMO.com" "password2" "password2" true);
        (jan1 + 2, OpOAuth "id3" "google"); (jan1 + 3, OpOAuth "id4" "google")]
       (mkAuth [mkUser "id0" "eve@demo.com" "password0" 0] None [])).
Proof.
  apply (proj1 (unique_emails_invariant lower)).
  unfold unique_emails. simpl. constructor; [simpl; tauto | constructor].
Defined.

(** ** Password reset *)





Section ResetFacts.

Variable lc : string -> string.


End ResetFacts.


(** * The log in time order *)

Lemma newest_first_weaken (b b' : Z) (l : list ActivityEntry) :
  b <= b' -> newest_first b l -> newest_first b' l.
Proof. destruct l as [|e l]; simpl; [auto|]. intros H [H1 H2]. split; [lia | exact H2]. Qed.

Lemma newest_first_firstn (n : nat) (b : Z) (l : list ActivityEntry) :
  newest_first b l -> newest_first b (firstn n l).
Proof.
  revert b l. induction n as [|n IH]; intros b [|e l]; simpl; auto.
  intros [H1 H2]. split; [exact H1 | now apply IH].
Qed.

Lemma pushActivity_newest_first (now : Z) (lbl : string) (d : Z) (a : App) :
  newest_first now (activity (state a)) ->
  newest_first now (activity (state (pushActivity now lbl d a))).
Proof.
  intros H. rewrite pushActivity_activity. apply newest_first_firstn.
  simpl. split; [lia | exact H].
Qed.

Lemma step_newest_first (now : Z) (e : Event) (s : Sys) :
  newest_first now (activity (state (app s))) ->
  newest_first now (activity (state (app (step now e s)))).
Proof.
  intros H. destruct e; unfold step.
  - assert (E : activity (state (fst (runTask_begin loggedIn btnOk now type (app s))))
                = activity (state (app s))).
    { destruct (ensureDaily_frame now (app s)) as (_ & _ & _ & Ha & _).
      unfold runTask_begin. break_ifs; simpl; exact Ha. }
    destruct (runTask_begin loggedIn btnOk now type (app s)); cbn [fst app] in *.
    now rewrite E.
  - destruct (nth_error (tasksWaiting s) i) as [p|]; cbn [app]; [|exact H].
    unfold runTask_resume.
    destruct (String.eqb (p_type p) "daily"); cbn -[firstn ensureDaily newest_first];
      match goal with
      | |- context [ensureDaily now ?x] =>
          destruct (ensureDaily_frame now x) as (_ & _ & _ & Ha & _)
      end; rewrite Ha; apply newest_first_firstn; simpl; (split; [lia | exact H]).
  - unfold createVps_begin. break_ifs; exact H.
  - destruct (createsWaiting s); cbn [app]; [exact H|].
    unfold createVps_resume. cbn -[firstn newest_first].
    apply newest_first_firstn. simpl. split; [lia | exact H].
  - unfold stopVps_begin. break_ifs; exact H.
  - destruct (stopsWaiting s); cbn [app]; [exact H|].
    unfold stopVps_resume. break_ifs; exact H.
  - cbn [app]. unfold extendVps. break_ifs; try exact H.
    cbn -[firstn newest_first]. apply newest_first_firstn. simpl. split; [lia | exact H].
  - cbn [app]. destruct (tick_frame now (app s)) as (_ & _ & -> & _). exact H.
Qed.

Lemma last_cons_default {A} (l : list A) (x d : A) : last (x :: l) d = last l x.
Proof.
  revert x d. induction l as [|y l IH]; intros x d; [reflexivity|].
  change (last (x :: y :: l) d) with (last (y :: l) d).
  change (last (y :: l) x) with (last (y :: l) x).
  now rewrite !IH.
Qed.

(** X16.  When the clock never goes back along a trace, the activity log
    stays in time order: every entry carries an instant no later than the
    last event, and no entry is later than the entry shown above it. *)
Theorem activity_log_in_time_order (tr : list (Z * Event)) (t0 : Z) (s : Sys)
    (Hclock : ascending t0 (map fst tr))
    (Hlog : newest_first t0 (activity (state (app s)))) :
  newest_first (end_of t0 tr) (activity (state (app (run tr s)))).
Proof.
  revert t0 s Hclock Hlog. induction tr as [|[now e] tr IH]; intros t0 s Hc Hl.
  - exact Hl.
  - destruct Hc as [H1 H2].
    assert (E : end_of t0 ((now, e) :: tr) = end_of now tr).
    { unfold end_of. cbn [map fst]. apply last_cons_default. }
    rewrite E. cbn [run]. apply IH; [exact H2|].
    apply step_newest_first. now apply (newest_first_weaken t0).
Qed.

Lemma activity_log_in_time_order_witness :
  newest_first (jan1 + 70100)
    (activity (state (app (run recreate_on_paused_time (boot jan1 None 0))))).
Proof.
  apply (activity_log_in_time_order recreate_on_paused_time jan1 (boot jan1 None 0)).
  - unfold jan1. simpl. repeat split; lia.
  - exact I.
Defined.

(** * The date key *)

Lemma civil_inverse (days : Z) :
  let '(y, m, d) := Clock.civil days in
  1 <= m <= 12 /\ 1 <= d <= 31 /\ days_from_civil y m d = days.
Proof.
  unfold Clock.civil, days_from_civil.
  set (z := days + 719468).
  set (era := z / 146097).
  set (doe := z - era * 146097).
  assert (Hz : days = era * 146097 + doe - 719468) by (unfold doe, z; lia).
  assert (Hdoe : 0 <= doe < 146097) by (unfold doe, era; Z.div_mod_to_equations; lia).
  clearbody doe era. clear z.
  set (yoe := (doe - doe / 1460 + doe / 36524 - doe / 146096) / 365).
  assert (Hyoe : 0 <= yoe <= 399) by (unfold yoe; Z.div_mod_to_equations; lia).
  set (doy := doe - (365 * yoe + yoe / 4 - yoe / 100)).
  assert (Hdoy : 0 <= doy <= 365).
  { unfold doy, yoe. Z.div_mod_to_equations. lia. }
  assert (Hdoe' : doe = yoe * 365 + yoe / 4 - yoe / 100 + doy) by (unfold doy; lia).
  clearbody doy yoe.
  set (mp := (5 * doy + 2) / 153).
  assert (Hmp : 0 <= mp <= 11) by (unfold mp; Z.div_mod_to_equations; lia).
  set (d := doy - (153 * mp + 2) / 5 + 1).
  assert (Hd : 1 <= d <= 31) by (unfold d, mp; Z.div_mod_to_equations; lia).
  assert (Hdoy' : doy = (153 * mp + 2) / 5 + d - 1) by (unfold d; lia).
  clearbody d mp.
  set (m := if mp <? 10 then mp + 3 else mp - 9).
  assert (Hm : 1 <= m <= 12 /\ (if 2 <? m then m - 3 else m + 9) = mp /\
               (if m <=? 2 then 1 else 0) = (if mp <? 10 then 0 else 1)).
  { unfold m. destruct (Z.ltb_spec mp 10).
    - destruct (Z.ltb_spec 2 (mp + 3)); [|lia]. destruct (Z.leb_spec (mp + 3) 2); lia.
    - destruct (Z.ltb_spec 2 (mp - 9)); [lia|]. destruct (Z.leb_spec (mp - 9) 2); lia. }
  destruct Hm as (Hm1 & Hm2 & Hm3). clearbody m.
  split; [exact Hm1|]. split; [exact Hd|].
  rewrite Hm2.
  set (y' := if m <=? 2 then yoe + era * 400 + (if m <=? 2 then 1 else 0) - 1
             else yoe + era * 400 + (if m <=? 2 then 1 else 0)).
  assert (Hy : y' = yoe + era * 400) by (unfold y'; destruct (m <=? 2); lia).
  clearbody y'. subst y'.
  assert (He : (yoe + era * 400) / 400 = era).
  { symmetry. apply Z.div_unique with (r := yoe); lia. }
  rewrite He.
  replace (yoe + era * 400 - era * 400) with yoe by lia.
  lia.
Qed.

Lemma civil_inj (d1 d2 : Z) : Clock.civil d1 = Clock.civil d2 -> d1 = d2.
Proof.
  intros E. pose proof (civil_inverse d1) as H1. pose proof (civil_inverse d2) as H2.
  rewrite E in H1. destruct (Clock.civil d2) as [[y m] d].
  destruct H1 as (_ & _ & <-). destruct H2 as (_ & _ & <-). reflexivity.
Qed.

Lemma str_inj (a b : Z) : Clock.str a = Clock.str b -> a = b.
Proof.
  unfold Clock.str. intros E.
  apply (f_equal NilZero.int_of_string) in E.
  assert (N : forall z, Z.to_int z <> Decimal.Pos Decimal.Nil /\
                        Z.to_int z <> Decimal.Neg Decimal.Nil).
  { intros [|p|p]; simpl; split; try discriminate;
      intros H; injection H as H; now apply DecimalPos.Unsigned.to_uint_nonnil in H. }
  rewrite !NilZero.isi in E by apply N.
  injection E as E. now apply DecimalZ.to_int_inj.
Qed.

Lemma string_app_inv (a b x y : string) :
  String.length x = String.length y ->
  (a ++ x)%string = (b ++ y)%string -> a = b /\ x = y.
Proof.
  intros Hl. revert b. induction a as [|c a IH]; intros [|c' b] E; cbn [append] in E.
  - auto.
  - apply (f_equal String.length) in E. cbn [String.length] in E.
    rewrite string_length_app in E. lia.
  - apply (f_equal String.length) in E. cbn [String.length] in E.
    rewrite string_length_app in E. lia.
  - injection E as -> E. destruct (IH b E) as [-> ->]. auto.
Qed.

(** The date key spelled out: the year, then month and day in two digits. *)
Lemma utcDateKey_shape (ms : Z) :
  let '(y, m, d) := Clock.civil (Clock.dayOf ms) in
  1 <= m <= 12 /\ 1 <= d <= 31 /\
  Clock.utcDateKey ms
  = (Clock.str y ++ "-" ++ two_digits m ++ "-" ++ two_digits d)%string.
Proof.
  unfold Clock.utcDateKey.
  pose proof (civil_inverse (Clock.dayOf ms)) as H.
  destruct (Clock.civil (Clock.dayOf ms)) as [[y m] d].
  destruct H as (Hm & Hd & _).
  rewrite !pad2_two_digits by lia. auto.
Qed.

(** X17.  Two instants have the same date key exactly when they fall on
    the same UTC day: the key does not change between one midnight UTC and
    the next, and it always changes at midnight.  The key is the year, a
    month from 01 to 12 and a day from 01 to 31, joined by hyphens. *)
Theorem utcDateKey_same_day :
  (forall a b, Clock.utcDateKey a = Clock.utcDateKey b <-> a / dayMs = b / dayMs) /\
  (forall day ms, 0 <= ms < dayMs ->
     Clock.utcDateKey (day * dayMs + ms) = Clock.utcDateKey (day * dayMs) /\
     Clock.utcDateKey (day * dayMs + ms) <> Clock.utcDateKey ((day + 1) * dayMs)) /\
  (forall a, let '(y, m, d) := Clock.civil (Clock.dayOf a) in
     1 <= m <= 12 /\ 1 <= d <= 31 /\
     Clock.utcDateKey a
     = (Clock.str y ++ "-" ++ two_digits m ++ "-" ++ two_digits d)%string).
Proof.
  assert (Iff : forall a b,
            Clock.utcDateKey a = Clock.utcDateKey b <-> a / dayMs = b / dayMs).
  { intros a b. split.
    - intros E.
      pose proof (utcDateKey_shape a) as Ha. pose proof (utcDateKey_shape b) as Hb.
      change (a / dayMs) with (Clock.dayOf a). change (b / dayMs) with (Clock.dayOf b).
      apply civil_inj.
      destruct (Clock.civil (Clock.dayOf a)) as [[y1 m1] d1].
      destruct (Clock.civil (Clock.dayOf b)) as [[y2 m2] d2].
      destruct Ha as (Hm1 & Hd1 & E1). destruct Hb as (Hm2 & Hd2 & E2).
      rewrite E1, E2 in E.
      apply string_app_inv in E; [|reflexivity].
      destruct E as [Ey E]. apply str_inj in Ey.
      unfold two_digits in E. cbn [append] in E.
      injection E as E3 E4 E5 E6.
      assert (m1 = m2).
      { apply two_digits_inj; [lia | lia |]. unfold two_digits. now rewrite E3, E4. }
      assert (d1 = d2).
      { apply two_digits_inj; [lia | lia |]. unfold two_digits. now rewrite E5, E6. }
      congruence.
    - intros E. unfold Clock.utcDateKey, Clock.dayOf. fold dayMs. now rewrite E. }
  split; [exact Iff | split; [|exact utcDateKey_shape]].
  intros day ms Hms. unfold dayMs in *. split.
  - apply Iff. unfold dayMs. Z.div_mod_to_equations. lia.
  - intros E. apply Iff in E. unfold dayMs in E. revert E.
    Z.div_mod_to_equations. lia.
Qed.

Lemma utcDateKey_same_day_witness :
  Clock.utcDateKey (19723 * dayMs + 86399999) = Clock.utcDateKey jan1 /\
  Clock.utcDateKey (19723 * dayMs + 86399999) <> Clock.utcDateKey jan2.
Proof.
  destruct utcDateKey_same_day as (_ & H & _).
  destruct (H 19723 86399999) as [H1 H2]; [unfold dayMs; lia|].
  split; [exact H1 | exact H2].
Defined.

(** * Simulated OAuth *)

Section OAuthFacts.

Variable lc : string -> string.

Lemma oauthSignIn_found (id provider : string) (now : Z) (au : Auth) (u : User) :
  find (sameEmail lc (if String.eqb provider "google"
                      then "google_user@demo.com" else "github_user@demo.com"))
       (users au) = Some u ->
  oauthSignIn lc id now provider au
  = mkAuth (users au) (Some (mkSession (u_id u) (u_email u) now)) (resetStore au).
Proof. intros H. unfold oauthSignIn, ensureDemoUser. now rewrite H. Qed.

(** X18.  Signing in through a provider button twice uses one account:
    the second sign-in adds no account and opens a session of the same
    user.  The first adds at most one account.  The account is the one whose
    email is, up to case, google_user@demo.com for the provider "google" and
    github_user@demo.com for every other provider. *)
Theorem oauth_reuses_account (id1 id2 provider : string) (t1 t2 : Z) (au : Auth) :
  let email := if String.eqb provider "google"
               then "google_user@demo.com" else "github_user@demo.com" in
  let au1 := oauthSignIn lc id1 t1 provider au in
  let au2 := oauthSignIn lc id2 t2 provider au1 in
  users au2 = users au1 /\
  (List.length (users au1) <= S (List.length (users au)))%nat /\
  exists u, In u (users au1) /\ lc (u_email u) = lc email /\
    session au1 = Some (mkSession (u_id u) (u_email u) t1) /\
    session au2 = Some (mkSession (u_id u) (u_email u) t2).
Proof.
  intros email au1 au2.
  assert (H1 : exists u,
             find (sameEmail lc email) (users au1) = Some u /\
             session au1 = Some (mkSession (u_id u) (u_email u) t1) /\
             (List.length (users au1) <= S (List.length (users au)))%nat).
  { unfold au1, oauthSignIn, ensureDemoUser. fold email.
    destruct (find (sameEmail lc email) (users au)) as [u|] eqn:E.
    - exists u. cbn [users session]. repeat split; auto.
    - exists (mkUser id1 email
                ("oauth:" ++ (if String.eqb provider "" then "oauth" else provider))%string t1).
      cbn [users session u_id u_email]. split; [|split; [reflexivity|]].
      + rewrite find_snoc_fresh by now apply find_none_existsb.
        unfold sameEmail at 1. cbn [u_email]. rewrite String.eqb_refl. reflexivity.
      + rewrite length_app. simpl. lia. }
  destruct H1 as (u & Hf & Hs & Hl).
  assert (E2 : au2 = mkAuth (users au1) (Some (mkSession (u_id u) (u_email u) t2))
                            (resetStore au1)).
  { unfold au2. now apply oauthSignIn_found. }
  split; [now rewrite E2|]. split; [exact Hl|].
  exists u. apply find_some in Hf. destruct Hf as [Hin Hsame].
  split; [exact Hin|]. split.
  - unfold sameEmail in Hsame. now apply String.eqb_eq in Hsame.
  - split; [exact Hs | now rewrite E2].
Qed.

End OAuthFacts.
